(** * fastapi_ratelimiter.strategies: a shallow embedding and its properties

    The development follows [fastapi_ratelimiter/strategies.py]:

    - [Py]        the fragment of Python the module relies on: exceptions,
                  the objects that flow through the strategies, [str.join],
                  [str.split], [int(...)], [%d] formatting;
    - [Zlib]      [zlib.crc32];
    - [Hashlib]   [hashlib.md5(...).hexdigest()];
    - [Redis]     the store commands the strategies issue (INCR, EXPIRE,
                  ZREMRANGEBYSCORE, ZADD, ZRANGE) and pipelined execution;
    - [Strategies] [RateLimitStatus], [AbstractRateLimitStrategy],
                  [BucketingRateLimitStrategy], [SlidingWindowLimitStrategy].

    Python integers are unbounded and are modelled by [Z].  A Python [str] is
    represented by its UTF-8 encoding, held in a [string]; a [bytes] object is
    a [list byte].  Clock readings ([time.time()]) and object addresses are
    inputs of the functions that consume them. *)

From Stdlib Require Import ZArith Lia.
From Stdlib.Strings Require Import Byte Ascii String.
From stdpp Require Import base gmap strings list pretty sorting.

Local Open Scope Z_scope.

(* ================================================================= *)
(** ** Python values, exceptions and string helpers *)

Module Py.

(** Exceptions that can leave the strategies.  [UserError] stands for
    whatever a user-supplied identifier factory raises; [ResponseError] is
    the error reply of the store surfaced by the client. *)
Inductive exn : Type :=
| TypeError
| AttributeError
| ValueError
| ZeroDivisionError
| IndexError
| UnicodeDecodeError
| ResponseError (msg : string)
| UserError (msg : string).

Inductive result (A : Type) : Type :=
| Ok (a : A)
| Raise (e : exn).
Arguments Ok {A} a.
Arguments Raise {A} e.

#[global] Instance result_ret : MRet result := fun _ a => Ok a.
#[global] Instance result_bind : MBind result := fun _ _ f m =>
  match m with
  | Ok a => f a
  | Raise e => Raise e
  end.

Definition is_ok {A} (r : result A) : bool :=
  match r with Ok _ => true | Raise _ => false end.

(** [starlette.requests.Request], reduced to the object identity, the
    per-request data an identifier factory may look at, and the one setting
    of the store client attached to it that the strategies depend on. *)
Record Request : Type := mkRequest {
  request_id : N;
  client_host : string;
  request_path : string;
  (* [request.state.redis] was created with [decode_responses=True] *)
  redis_decode_responses : bool
}.

(** The objects that reach the strategies' string operations. *)
Inductive pyobj : Type :=
| PStr (s : string)
| PBytes (b : list byte)
| PInt (n : Z)
| PCoroutine (qualname : string) (addr : N)
| PRequest (r : Request).

(** Lower-case hexadecimal digits of an address, as [%p] prints them. *)
Definition hex_digit (d : N) : ascii :=
  ascii_of_N (if (d <? 10)%N then 48 + d else 87 + d)%N.

Fixpoint hex_pos_aux (fuel : nat) (n : N) (acc : string) : string :=
  match fuel with
  | O => acc
  | S fuel' =>
      let acc' := String (hex_digit (n mod 16)%N) acc in
      if (n / 16 =? 0)%N then acc' else hex_pos_aux fuel' (n / 16)%N acc'
  end.

Definition hex (n : N) : string :=
  "0x" +:+ hex_pos_aux (S (N.to_nat (N.log2 n))) n EmptyString.

Definition byte_Z (b : byte) : Z := Z.of_N (Byte.to_N b).

(** [repr] of a [bytes] object. *)
Definition quote_of (b : list byte) : ascii :=
  if existsb (fun c => byte_Z c =? 39) b && negb (existsb (fun c => byte_Z c =? 34) b)
  then ascii_of_N 34 else ascii_of_N 39.

Definition repr_byte (q : ascii) (c : byte) : string :=
  let a := ascii_of_byte c in
  let n := byte_Z c in
  if (n =? 92) || Ascii.eqb a q then String "\" (String a EmptyString)
  else if n =? 9 then "\t"
  else if n =? 10 then "\n"
  else if n =? 13 then "\r"
  else if (n <? 32) || (127 <=? n) then
    String "\" (String "x"
      (String (hex_digit (Z.to_N n / 16))
         (String (hex_digit (Z.to_N n mod 16)) EmptyString)))
  else String a EmptyString.

Definition bytes_repr (b : list byte) : string :=
  let q := quote_of b in
  "b" +:+ String q (String.concat EmptyString (map (repr_byte q) b)) +:+ String q EmptyString.

(** [str(x)], which is also what an f-string placeholder [{x}] renders. *)
Definition py_str (x : pyobj) : string :=
  match x with
  | PStr s => s
  | PBytes b => bytes_repr b
  | PInt n => pretty n
  | PCoroutine q a => "<coroutine object " +:+ q +:+ " at " +:+ hex a +:+ ">"
  | PRequest r => "<starlette.requests.Request object at " +:+ hex (request_id r) +:+ ">"
  end.

(** [''.join(parts)]: every item must be a [str]. *)
Fixpoint join (parts : list pyobj) : result string :=
  match parts with
  | [] => Ok EmptyString
  | PStr s :: rest => r ← join rest; Ok (s +:+ r)
  | _ :: _ => Raise TypeError
  end.

(** [s.encode('utf-8')] on the UTF-8 representation of a [str]. *)
Definition encode_utf8 (s : string) : list byte := list_byte_of_string s.

(** ['%d' % n] *)
Definition fmt_d (n : Z) : string := pretty n.

(** [a % b] on integers: the sign follows the divisor, as [Z.modulo]. *)
Definition py_mod (a b : Z) : result Z :=
  if b =? 0 then Raise ZeroDivisionError else Ok (a mod b).

(** [x - n] for an integer [n]: only an integer [x] supports it. *)
Definition sub_int (x : pyobj) (n : Z) : result Z :=
  match x with
  | PInt a => Ok (a - n)
  | _ => Raise TypeError
  end.

(** [s.split(sep)] for a one-character separator. *)
Fixpoint split_aux (sep : ascii) (s : string) (cur : string) : list string :=
  match s with
  | EmptyString => [String.rev cur]
  | String c s' =>
      if Ascii.eqb c sep then String.rev cur :: split_aux sep s' EmptyString
      else split_aux sep s' (String c cur)
  end.

Definition split (sep : ascii) (s : string) : list string := split_aux sep s EmptyString.

(** [l[i]] for a non-negative index *)
Definition item {A} (i : nat) (l : list A) : result A :=
  match l !! i with
  | Some x => Ok x
  | None => Raise IndexError
  end.

(** [l[-1]] *)
Definition last_item {A} (l : list A) : result A :=
  match last l with
  | Some x => Ok x
  | None => Raise IndexError
  end.

(** Strict UTF-8 decoding: the code points of a [str] held by its UTF-8
    encoding, [None] for bytes that are not valid UTF-8. *)
Definition continuation (b : N) : bool := ((0x80 <=? b) && (b <=? 0xBF))%N.

Fixpoint utf8_decode (s : string) : option (list N) :=
  match s with
  | EmptyString => Some []
  | String c0 r0 =>
      let b0 := N_of_ascii c0 in
      if (b0 <? 0x80)%N then cons b0 <$> utf8_decode r0
      else
        match r0 with
        | String c1 r1 =>
            let b1 := N_of_ascii c1 in
            if ((0xC2 <=? b0) && (b0 <=? 0xDF) && continuation b1)%N
            then cons ((b0 - 0xC0) * 64 + (b1 - 0x80))%N <$> utf8_decode r1
            else
              match r1 with
              | String c2 r2 =>
                  let b2 := N_of_ascii c2 in
                  let cp3 := ((b0 - 0xE0) * 4096 + (b1 - 0x80) * 64 + (b2 - 0x80))%N in
                  if ((0xE0 <=? b0) && (b0 <=? 0xEF) && continuation b1
                      && continuation b2 && (0x800 <=? cp3)
                      && negb ((0xD800 <=? cp3) && (cp3 <=? 0xDFFF)))%N
                  then cons cp3 <$> utf8_decode r2
                  else
                    match r2 with
                    | String c3 r3 =>
                        let b3 := N_of_ascii c3 in
                        let cp4 := ((b0 - 0xF0) * 262144 + (b1 - 0x80) * 4096
                                    + (b2 - 0x80) * 64 + (b3 - 0x80))%N in
                        if ((0xF0 <=? b0) && (b0 <=? 0xF4) && continuation b1
                            && continuation b2 && continuation b3
                            && (0x10000 <=? cp4) && (cp4 <=? 0x10FFFF))%N
                        then cons cp4 <$> utf8_decode r3
                        else None
                    | EmptyString => None
                    end
              | EmptyString => None
              end
        | EmptyString => None
        end
  end.

(** [b.decode('utf-8')] succeeds. *)
Definition valid_utf8 (s : string) : bool :=
  match utf8_decode s with Some _ => true | None => false end.

(** The zero digits of the decimal-digit ranges of the Unicode character
    database (category Nd, version 14.0.0, the one of CPython 3.11); each is
    followed by the digits one to nine. *)
Definition decimal_zeros : list N :=
  [0x30; 0x660; 0x6F0; 0x7C0; 0x966; 0x9E6; 0xA66; 0xAE6; 0xB66; 0xBE6;
   0xC66; 0xCE6; 0xD66; 0xDE6; 0xE50; 0xED0; 0xF20; 0x1040; 0x1090;
   0x17E0; 0x1810; 0x1946; 0x19D0; 0x1A80; 0x1A90; 0x1B50; 0x1BB0;
   0x1C40; 0x1C50; 0xA620; 0xA8D0; 0xA900; 0xA9D0; 0xA9F0; 0xAA50;
   0xABF0; 0xFF10; 0x104A0; 0x10D30; 0x11066; 0x110F0; 0x11136; 0x111D0;
   0x112F0; 0x11450; 0x114D0; 0x11650; 0x116C0; 0x11730; 0x118E0;
   0x11950; 0x11C50; 0x11D50; 0x11DA0; 0x16A60; 0x16AC0; 0x16B50;
   0x1D7CE; 0x1D7D8; 0x1D7E2; 0x1D7EC; 0x1D7F6; 0x1E140; 0x1E2F0;
   0x1E950; 0x1FBF0]%N.

Definition decimal_value (cp : N) : option N :=
  (λ z, cp - z)%N <$> List.find (λ z, (z <=? cp) && (cp <? z + 10))%N decimal_zeros.

(** The white space of the database outside ASCII (what [str.isspace]
    accepts from U+0080 on). *)
Definition unicode_space (cp : N) : bool :=
  ((cp =? 0x85) || (cp =? 0xA0) || (cp =? 0x1680)
   || ((0x2000 <=? cp) && (cp <=? 0x200A))
   || (cp =? 0x2028) || (cp =? 0x2029) || (cp =? 0x202F) || (cp =? 0x205F)
   || (cp =? 0x3000))%N.

(** What [int] does to a [str] before parsing it: characters below U+007F
    stay, white space becomes a space, a decimal digit of any script becomes
    the ASCII digit of its value, anything else becomes a question mark. *)
Definition to_ascii (cp : N) : ascii :=
  if (cp <? 127)%N then ascii_of_N cp
  else if unicode_space cp then " "%char
  else match decimal_value cp with
       | Some d => ascii_of_N (48 + d)
       | None => "?"%char
       end.

Definition transform_decimal_and_space (s : string) : string :=
  match utf8_decode s with
  | Some cps => string_of_list_ascii (map to_ascii cps)
  | None => "?"
  end.

(** [sys.int_info.default_max_str_digits] *)
Definition int_max_str_digits : Z := 4300.

(** [int(s)] for a [str]: after the transformation above, optional
    surrounding white space (as C's [isspace] has it), an optional sign,
    then decimal digits, single underscores allowed between digits; more
    digits than [int_max_str_digits] are refused. *)
Definition is_space (c : ascii) : bool :=
  let n := N_of_ascii c in ((9 <=? n) && (n <=? 13) || (n =? 32))%N.

Definition is_digit (c : ascii) : bool :=
  let n := N_of_ascii c in ((48 <=? n) && (n <=? 57))%N.

Fixpoint lstrip (s : string) : string :=
  match s with
  | String c s' => if is_space c then lstrip s' else s
  | EmptyString => s
  end.

Definition strip (s : string) : string :=
  String.rev (lstrip (String.rev (lstrip s))).

(** [digits acc prev_digit s]: [prev_digit] tells whether the previous
    character was a digit (an underscore must sit between two digits). *)
Fixpoint digits (acc : Z) (prev_digit : bool) (s : string) : option Z :=
  match s with
  | EmptyString => if prev_digit then Some acc else None
  | String c s' =>
      if is_digit c then digits (10 * acc + (Z.of_N (N_of_ascii c) - 48)) true s'
      else if Ascii.eqb c "_" && prev_digit then digits acc false s'
      else None
  end.

Fixpoint count_digits (s : string) : Z :=
  match s with
  | EmptyString => 0
  | String c s' => (if is_digit c then 1 else 0) + count_digits s'
  end.

Definition int_of_str (s : string) : result Z :=
  let body := strip (transform_decimal_and_space s) in
  let '(sign, ds) :=
    match body with
    | String "-" r => (-1, r)
    | String "+" r => (1, r)
    | _ => (1, body)
    end in
  match ds with
  | EmptyString => Raise ValueError
  | String c _ =>
      if is_digit c then
        match digits 0 false ds with
        | Some n =>
            if int_max_str_digits <? count_digits ds then Raise ValueError
            else Ok (sign * n)
        | None => Raise ValueError
        end
      else Raise ValueError
  end.

(** Every character of the string is an ASCII character. *)
Definition all_ascii (s : string) : Prop :=
  Forall (λ c, (N_of_ascii c < 128)%N) (list_ascii_of_string s).


(** The characters of several [str] one after the other. *)
Definition concat_str (l : list string) : string :=
  foldr String.append EmptyString l.

End Py.

Import Py.

(* ================================================================= *)
(** ** [zlib.crc32] *)

Module Zlib.

(** One bit of the reflected CRC-32 (polynomial 0xEDB88320). *)
Definition crc_shift (c : Z) : Z :=
  if Z.testbit c 0 then Z.lxor (Z.shiftr c 1) 0xEDB88320 else Z.shiftr c 1.

Definition crc_byte (c : Z) (b : byte) : Z :=
  Nat.iter 8 crc_shift (Z.lxor c (byte_Z b)).

(** [zlib.crc32(data)]: an unsigned 32-bit value. *)
Definition crc32 (data : list byte) : Z :=
  Z.lxor (fold_left crc_byte data 0xFFFFFFFF) 0xFFFFFFFF.

End Zlib.

(* ================================================================= *)
(** ** [hashlib.md5] *)

Module Hashlib.

Definition w32 (x : Z) : Z := Z.land x 0xFFFFFFFF.

Definition rotl32 (x : Z) (c : Z) : Z :=
  w32 (Z.lor (Z.shiftl x c) (Z.shiftr (w32 x) (32 - c))).

Definition not32 (x : Z) : Z := Z.lxor (w32 x) 0xFFFFFFFF.

Definition shifts : list Z :=
  [7; 12; 17; 22; 7; 12; 17; 22; 7; 12; 17; 22; 7; 12; 17; 22;
   5; 9; 14; 20; 5; 9; 14; 20; 5; 9; 14; 20; 5; 9; 14; 20;
   4; 11; 16; 23; 4; 11; 16; 23; 4; 11; 16; 23; 4; 11; 16; 23;
   6; 10; 15; 21; 6; 10; 15; 21; 6; 10; 15; 21; 6; 10; 15; 21].

(** [floor(2^32 * abs(sin(i + 1)))] for [i = 0 .. 63]. *)
Definition sines : list Z :=
  [0xd76aa478; 0xe8c7b756; 0x242070db; 0xc1bdceee;
   0xf57c0faf; 0x4787c62a; 0xa8304613; 0xfd469501;
   0x698098d8; 0x8b44f7af; 0xffff5bb1; 0x895cd7be;
   0x6b901122; 0xfd987193; 0xa679438e; 0x49b40821;
   0xf61e2562; 0xc040b340; 0x265e5a51; 0xe9b6c7aa;
   0xd62f105d; 0x02441453; 0xd8a1e681; 0xe7d3fbc8;
   0x21e1cde6; 0xc33707d6; 0xf4d50d87; 0x455a14ed;
   0xa9e3e905; 0xfcefa3f8; 0x676f02d9; 0x8d2a4c8a;
   0xfffa3942; 0x8771f681; 0x6d9d6122; 0xfde5380c;
   0xa4beea44; 0x4bdecfa9; 0xf6bb4b60; 0xbebfbc70;
   0x289b7ec6; 0xeaa127fa; 0xd4ef3085; 0x04881d05;
   0xd9d4d039; 0xe6db99e5; 0x1fa27cf8; 0xc4ac5665;
   0xf4292244; 0x432aff97; 0xab9423a7; 0xfc93a039;
   0x655b59c3; 0x8f0ccc92; 0xffeff47d; 0x85845dd1;
   0x6fa87e4f; 0xfe2ce6e0; 0xa3014314; 0x4e0811a1;
   0xf7537e82; 0xbd3af235; 0x2ad7d2bb; 0xeb86d391].

Definition nthZ (l : list Z) (i : Z) : Z := nth (Z.to_nat i) l 0.

(** Little-endian 32-bit words of a byte sequence. *)
Fixpoint words_le (bs : list Z) : list Z :=
  match bs with
  | b0 :: b1 :: b2 :: b3 :: rest =>
      (b0 + Z.shiftl b1 8 + Z.shiftl b2 16 + Z.shiftl b3 24) :: words_le rest
  | _ => []
  end.

Definition bytes_le (n : nat) (x : Z) : list Z :=
  map (fun i => Z.land (Z.shiftr x (8 * Z.of_nat i)) 0xFF) (seq 0 n).

(** Padding: a 1 bit, zeros up to 56 modulo 64, then the bit length on
    64 bits, little-endian. *)
Definition pad (msg : list Z) : list Z :=
  let len := Z.of_nat (length msg) in
  let zeros := Z.to_nat ((55 - len) mod 64) in
  msg ++ [0x80] ++ repeat 0 zeros ++ bytes_le 8 ((8 * len) mod 2 ^ 64).

Definition round (m : list Z) (st : Z * Z * Z * Z) (i : Z) : Z * Z * Z * Z :=
  let '(a, b, c, d) := st in
  let '(f, g) :=
    if i <? 16 then (Z.lor (Z.land b c) (Z.land (not32 b) d), i)
    else if i <? 32 then (Z.lor (Z.land d b) (Z.land (not32 d) c), (5 * i + 1) mod 16)
    else if i <? 48 then (Z.lxor (Z.lxor b c) d, (3 * i + 5) mod 16)
    else (Z.lxor c (Z.lor b (not32 d)), (7 * i) mod 16) in
  let f' := w32 (f + a + nthZ sines i + nthZ m g) in
  (d, w32 (b + rotl32 f' (nthZ shifts i)), b, c).

Definition process_block (st : Z * Z * Z * Z) (m : list Z) : Z * Z * Z * Z :=
  let '(a0, b0, c0, d0) := st in
  let '(a, b, c, d) := fold_left (round m) (map Z.of_nat (seq 0 64)) st in
  (w32 (a0 + a), w32 (b0 + b), w32 (c0 + c), w32 (d0 + d)).

Fixpoint blocks (fuel : nat) (ws : list Z) : list (list Z) :=
  match fuel, ws with
  | S fuel', _ :: _ => take 16 ws :: blocks fuel' (drop 16 ws)
  | _, _ => []
  end.

Definition md5_digest (data : list byte) : list Z :=
  let ws := words_le (pad (map byte_Z data)) in
  let '(a, b, c, d) :=
    fold_left process_block (blocks (length ws) ws)
              (0x67452301, 0xefcdab89, 0x98badcfe, 0x10325476) in
  bytes_le 4 a ++ bytes_le 4 b ++ bytes_le 4 c ++ bytes_le 4 d.

Definition hex_byte (b : Z) : string :=
  String (hex_digit (Z.to_N (b / 16))) (String (hex_digit (Z.to_N (b mod 16))) EmptyString).

(** [hashlib.md5(data).hexdigest()] *)
Definition md5_hexdigest (data : list byte) : string :=
  String.concat EmptyString (map hex_byte (md5_digest data)).

End Hashlib.

(* ================================================================= *)
(** ** The store: the Redis commands issued by the strategies *)

Module Redis.

(** A sorted set: members with their scores, kept in (score, member)
    order, every member at most once.  Scores are the integers the
    strategies write (millisecond timestamps). *)
Abbreviation zset := (list (string * Z)).

Inductive rvalue : Type :=
| VInt (n : Z)
| VZSet (zs : zset).

(** A key holds a value and, when a TTL was set, the instant (on the
    store's millisecond clock) at which it expires. *)
Record entry : Type := mkEntry {
  value : rvalue;
  deadline : option Z
}.

Abbreviation store := (gmap string entry).

Inductive command : Type :=
| INCR (key : string)
| EXPIRE (key : string) (seconds : Z)
| ZREMRANGEBYSCORE (key : string) (min max : Z)
| ZADD (key : string) (member : string) (score : Z)
| ZRANGE (key : string) (start stop : Z).

Inductive reply : Type :=
| RInt (n : Z)
| RBool (b : bool)
| RMembers (l : list string)
| RError (msg : string).

Definition live (now : Z) (e : entry) : bool :=
  match deadline e with
  | Some d => now <? d
  | None => true
  end.

(** The entry a command executed at [now] sees under [k]. *)
Definition get (now : Z) (st : store) (k : string) : option entry :=
  match st !! k with
  | Some e => if live now e then Some e else None
  | None => None
  end.

Definition in_range (min max : Z) (e : string * Z) : Prop := min ≤ e.2 ≤ max.

#[global] Instance in_range_dec min max e : Decision (in_range min max e).
Proof. unfold in_range. apply _. Defined.

Definition zremrangebyscore (min max : Z) (zs : zset) : zset :=
  filter (λ e, ¬ in_range min max e) zs.

Definition zremove (m : string) (zs : zset) : zset :=
  filter (λ e : string * Z, e.1 ≠ m) zs.

Definition entry_leb (a b : string * Z) : bool :=
  (a.2 <? b.2) || ((a.2 =? b.2) && String.leb a.1 b.1).

Fixpoint zinsert (e : string * Z) (zs : zset) : zset :=
  match zs with
  | [] => [e]
  | x :: rest => if entry_leb e x then e :: zs else x :: zinsert e rest
  end.

Definition zadd (m : string) (s : Z) (zs : zset) : zset :=
  zinsert (m, s) (zremove m zs).

Definition zmember (m : string) (zs : zset) : bool :=
  bool_decide (m ∈ zs.*1).

(** Index range of ZRANGE: negative indices count from the end, the range
    is clipped to the set. *)
Definition zslice {A} (start stop : Z) (l : list A) : list A :=
  let len := Z.of_nat (length l) in
  let start' := if start <? 0 then Z.max 0 (len + start) else start in
  let stop' := if stop <? 0 then len + stop else Z.min stop (len - 1) in
  if (stop' <? start') || (len <=? start') then []
  else take (Z.to_nat (stop' - start' + 1)) (drop (Z.to_nat start') l).

Definition WRONGTYPE : string :=
  "WRONGTYPE Operation against a key holding the wrong kind of value".

Definition exec (now : Z) (c : command) (st : store) : reply * store :=
  match c with
  | INCR k =>
      match get now st k with
      | None => (RInt 1, <[k := mkEntry (VInt 1) None]> st)
      | Some (mkEntry (VInt n) d) =>
          if n <? 2 ^ 63 - 1
          then (RInt (n + 1), <[k := mkEntry (VInt (n + 1)) d]> st)
          else (RError "ERR increment or decrement would overflow", st)
      | Some (mkEntry (VZSet _) _) => (RError WRONGTYPE, st)
      end
  | EXPIRE k seconds =>
      match get now st k with
      | None => (RBool false, st)
      | Some e =>
          if seconds <=? 0 then (RBool true, delete k st)
          else (RBool true, <[k := mkEntry (value e) (Some (now + seconds * 1000))]> st)
      end
  | ZREMRANGEBYSCORE k min max =>
      match get now st k with
      | None => (RInt 0, st)
      | Some (mkEntry (VZSet zs) d) =>
          let zs' := zremrangebyscore min max zs in
          let removed := Z.of_nat (length zs) - Z.of_nat (length zs') in
          match zs' with
          | [] => (RInt removed, delete k st)
          | _ => (RInt removed, <[k := mkEntry (VZSet zs') d]> st)
          end
      | Some (mkEntry (VInt _) _) => (RError WRONGTYPE, st)
      end
  | ZADD k m s =>
      match get now st k with
      | None => (RInt 1, <[k := mkEntry (VZSet [(m, s)]) None]> st)
      | Some (mkEntry (VZSet zs) d) =>
          (RInt (if zmember m zs then 0 else 1),
           <[k := mkEntry (VZSet (zadd m s zs)) d]> st)
      | Some (mkEntry (VInt _) _) => (RError WRONGTYPE, st)
      end
  | ZRANGE k start stop =>
      match get now st k with
      | None => (RMembers [], st)
      | Some (mkEntry (VZSet zs) _) => (RMembers (zslice start stop zs).*1, st)
      | Some (mkEntry (VInt _) _) => (RError WRONGTYPE, st)
      end
  end.

(** A pipeline: the queued commands run back to back at one instant of the
    store's clock; a failing command does not stop the ones after it. *)
Fixpoint run (now : Z) (cmds : list command) (st : store) : list reply * store :=
  match cmds with
  | [] => ([], st)
  | c :: cs =>
      let '(r, st1) := exec now c st in
      let '(rs, st2) := run now cs st1 in
      (r :: rs, st2)
  end.

(** [Pipeline.execute()]: the replies, or the first error among them
    raised as an exception. *)
Fixpoint raise_on_error (rs : list reply) : result (list reply) :=
  match rs with
  | [] => Ok []
  | RError msg :: _ => Raise (ResponseError msg)
  | r :: rest => rest' ← raise_on_error rest; Ok (r :: rest')
  end.

Definition execute (now : Z) (cmds : list command) (st : store)
  : result (list reply) * store :=
  let '(rs, st') := run now cmds st in (raise_on_error rs, st').

(** The sorted set a key holds at [now] (empty when the key is absent). *)
Definition zset_at (now : Z) (st : store) (k : string) : zset :=
  match get now st k with
  | Some (mkEntry (VZSet zs) _) => zs
  | _ => []
  end.

(** The key does not hold an integer at [now]: it is absent or a sorted
    set, so the sorted-set commands do not fail on it. *)
Definition not_a_counter (now : Z) (st : store) (k : string) : Prop :=
  ∀ n d, get now st k ≠ Some (mkEntry (VInt n) d).

(** The key a command addresses. *)
Definition key_of (c : command) : string :=
  match c with
  | INCR k | EXPIRE k _ | ZREMRANGEBYSCORE k _ _ | ZADD k _ _ | ZRANGE k _ _ => k
  end.

End Redis.

(* ================================================================= *)
(** ** [fastapi_ratelimiter.strategies] *)

Module Strategies.

Import Redis.

Definition DEFAULT_PREFIX : string := "rl:".

(** Extend the expiration time by a few seconds to avoid misses. *)
Definition EXPIRATION_FUDGE : Z := 5.

(** [fastapi_ratelimiter.config.RateLimitConfig]: the two fields the
    strategies read. *)
Record RateLimitConfig : Type := mkConfig {
  max_count : Z;
  period_in_seconds : Z
}.

(** *** [RateLimitStatus] *)

Record RateLimitStatus : Type := mkStatus {
  number_of_requests : Z;
  ratelimit_config : RateLimitConfig;
  time_left : Z
}.

Definition limit (self : RateLimitStatus) : Z :=
  max_count (ratelimit_config self).

Definition remaining_number_of_requests (self : RateLimitStatus) : Z :=
  limit self - number_of_requests self.

Definition should_limit (self : RateLimitStatus) : bool :=
  limit self <? number_of_requests self.

(** *** [AbstractRateLimitStrategy] *)

(** What [request_identifier_factory] can be, as far as [inspect] tells
    them apart:
    - [Plain f]: a callable for which [inspect.iscoroutine] and
      [inspect.iscoroutinefunction] are both false; calling it runs [f];
    - [CoroutineFunction f]: an [async def] function
      ([inspect.iscoroutinefunction] is true); [f] is what awaiting a call
      of it would produce;
    - [Coroutine outcome]: a coroutine object ([inspect.iscoroutine] is
      true); [outcome] is what awaiting it would produce. *)
Inductive factory : Type :=
| Plain (f : Request → result pyobj)
| CoroutineFunction (f : Request → result pyobj)
| Coroutine (outcome : result pyobj).

(** The attributes [__init__] sets.  The classes of the module define no
    attribute [_response_on_limit_exceeded]. *)
Record Strategy : Type := mkStrategy {
  _request_identifier : factory;
  _ratelimit_config : RateLimitConfig;
  _prefix : string
}.

Definition _get_request_identifier (self : Strategy) (request : Request)
  : result pyobj :=
  match _request_identifier self with
  | CoroutineFunction _ | Coroutine _ =>
      (* [await self._response_on_limit_exceeded(request)]: looking the
         attribute up fails; nothing is called, nothing is awaited *)
      Raise AttributeError
  | Plain f => f request
  end.

(** *** [BucketingRateLimitStrategy] *)

Module BucketingRateLimitStrategy.

Definition _create_storage_key (self : Strategy) (parts : list pyobj)
  : result string :=
  let safe_rate :=
    fmt_d (max_count (_ratelimit_config self)) +:+ "/"
    +:+ fmt_d (period_in_seconds (_ratelimit_config self)) +:+ "s" in
  joined ← join (PStr safe_rate :: parts);
  Ok (_prefix self +:+ Hashlib.md5_hexdigest (encode_utf8 joined)).

(** The body of the coroutine function [_get_window]; [epoch_time] is the
    reading [int(time.time())] it takes. *)
Definition _get_window (self : Strategy) (epoch_time : Z)
  (request_identifier : pyobj) : result Z :=
  let period := period_in_seconds (_ratelimit_config self) in
  if period =? 1 then Ok epoch_time
  else
    data ← match request_identifier with
           | PBytes b => Ok b
           | PStr s => Ok (encode_utf8 s)
           | _ => Raise AttributeError
           end;
    r ← py_mod epoch_time period;
    j ← py_mod (Zlib.crc32 data) period;
    let w := epoch_time - r + j in
    if w <? epoch_time then Ok (w + period) else Ok w.

(** The bytes the jitter is computed from, for the identifiers that have
    some: a [bytes] object itself, a [str] through its UTF-8 encoding. *)
Definition identifier_bytes (request_identifier : pyobj) : option (list byte) :=
  match request_identifier with
  | PBytes b => Some b
  | PStr s => Some (encode_utf8 s)
  | _ => None
  end.

(** The per-identifier jitter, and the counting periods it induces: the
    [k]-th period of an identifier ends at [k * period + jitter] and holds
    the [period] seconds up to and including that instant. *)
Definition jitter (self : Strategy) (data : list byte) : Z :=
  Zlib.crc32 data mod period_in_seconds (_ratelimit_config self).

Definition period_end (self : Strategy) (data : list byte) (k : Z) : Z :=
  k * period_in_seconds (_ratelimit_config self) + jitter self data.

Definition in_period (self : Strategy) (data : list byte) (k : Z) (now : Z) : Prop :=
  period_end self data k - period_in_seconds (_ratelimit_config self) < now
  ∧ now ≤ period_end self data k.

(** Calling an [async def] method runs none of its body: the call
    evaluates to a coroutine object, allocated at [addr]. *)
Definition call_get_window (addr : N) : pyobj :=
  PCoroutine "BucketingRateLimitStrategy._get_window" addr.

(** [get_ratelimit_status] of the bucketing strategy.  [addr] is where the
    coroutine object of line 73 is allocated, [now] the reading
    [int(time.time())] of line 89, [srv_ms] the store's clock when the
    pipeline executes. *)
Definition get_ratelimit_status (self : Strategy) (request : Request)
  (addr : N) (now : Z) (srv_ms : Z) (st : store)
  : result RateLimitStatus * store :=
  match _get_request_identifier self request with
  | Raise e => (Raise e, st)
  | Ok request_identifier =>
      let window := call_get_window addr in
      match _create_storage_key self
              [PRequest request; request_identifier; PStr (py_str window)] with
      | Raise e => (Raise e, st)
      | Ok storage_key =>
          let '(pipeline_result, st') :=
            execute srv_ms
              [INCR storage_key;
               EXPIRE storage_key
                 (period_in_seconds (_ratelimit_config self) + EXPIRATION_FUDGE)]
              st in
          (replies ← pipeline_result;
           first ← item 0 replies;
           number_of_requests ← match first with
                                | RInt n => Ok n
                                | _ => Raise TypeError
                                end;
           time_left ← sub_int window now;
           Ok (mkStatus number_of_requests (_ratelimit_config self) time_left),
           st')
      end
  end.

End BucketingRateLimitStrategy.

Export BucketingRateLimitStrategy.

(** *** [SlidingWindowLimitStrategy] *)

Module SlidingWindowLimitStrategy.

(** [int(i.split(':')[-1])] *)
Definition weight (i : string) : result Z :=
  suffix ← last_item (split ":" i);
  int_of_str suffix.

(** [sum(int(i.split(':')[-1]) for i in members)] *)
Fixpoint sum_weights (members : list string) : result Z :=
  match members with
  | [] => Ok 0
  | i :: rest => w ← weight i; s ← sum_weights rest; Ok (w + s)
  end.

Definition sliding_key (self : Strategy) (request_identifier : pyobj) : string :=
  _prefix self +:+ ":" +:+ py_str request_identifier.

Definition sliding_member (epoch_ms : Z) : string := fmt_d epoch_ms +:+ ":1".

(** The ledger entry an evaluation at [epoch_ms] writes. *)
Definition sliding_entry (epoch_ms : Z) : string * Z :=
  (sliding_member epoch_ms, epoch_ms).

(** The TTL the strategy sets on its key, [period_in_seconds * 1000 + 1]
    seconds, in the milliseconds of the store's clock. *)
Definition sliding_ttl_ms (self : Strategy) : Z :=
  (period_in_seconds (_ratelimit_config self) * 1000 + 1) * 1000.

Definition sliding_pipeline (self : Strategy) (storage_key : string)
  (epoch_ms : Z) : list command :=
  let period_in_seconds := period_in_seconds (_ratelimit_config self) in
  [ZREMRANGEBYSCORE storage_key 0 (epoch_ms - period_in_seconds * 100);
   ZADD storage_key (sliding_member epoch_ms) epoch_ms;
   ZRANGE storage_key 0 (-1);
   EXPIRE storage_key (period_in_seconds * 1000 + 1)].

(** What the client hands back for one member of a ZRANGE reply: a [str]
    when it decodes replies (the member must then be UTF-8), the [bytes] as
    they are otherwise. *)
Definition client_member (decode_responses : bool) (m : string) : result pyobj :=
  if decode_responses then
    if valid_utf8 m then Ok (PStr m) else Raise UnicodeDecodeError
  else Ok (PBytes (list_byte_of_string m)).

(** [int(i.split(':')[-1])] for a member as the client returned it:
    [bytes.split] refuses a [str] separator. *)
Definition weight_of (i : pyobj) : result Z :=
  match i with
  | PStr s => weight s
  | PBytes _ => Raise TypeError
  | _ => Raise AttributeError
  end.

Fixpoint sum_weights_of (members : list pyobj) : result Z :=
  match members with
  | [] => Ok 0
  | i :: rest => w ← weight_of i; s ← sum_weights_of rest; Ok (w + s)
  end.

(** [get_ratelimit_status] of the sliding-window strategy.  [epoch_ms] is
    the reading [int(time.time() * 1000)], [srv_ms] the store's clock when
    the pipeline executes.  The members of the ZRANGE reply reach line 142
    as the client of the request returns them. *)
Definition get_ratelimit_status (self : Strategy) (request : Request)
  (epoch_ms : Z) (srv_ms : Z) (st : store)
  : result RateLimitStatus * store :=
  match _get_request_identifier self request with
  | Raise e => (Raise e, st)
  | Ok request_identifier =>
      let storage_key := sliding_key self request_identifier in
      let '(result, st') :=
        execute srv_ms (sliding_pipeline self storage_key epoch_ms) st in
      (replies ← result;
       third ← item 2 replies;
       members ← match third with
                 | RMembers l => mapM (client_member (redis_decode_responses request)) l
                 | _ => Raise TypeError
                 end;
       number_of_requests ← sum_weights_of members;
       Ok (mkStatus number_of_requests (_ratelimit_config self) (-1)),
       st')
  end.

End SlidingWindowLimitStrategy.

Export SlidingWindowLimitStrategy.

(** *** Runs of evaluations *)

(** Evaluations of the sliding-window strategy one after the other, at the
    given millisecond readings; the store's clock agrees with the caller's. *)
Fixpoint sliding_evaluations (self : Strategy) (request : Request)
  (times : list Z) (st : store) : list (result RateLimitStatus) * store :=
  match times with
  | [] => ([], st)
  | t :: rest =>
      let '(r, st1) := SlidingWindowLimitStrategy.get_ratelimit_status self request t t st in
      let '(rs, st2) := sliding_evaluations self request rest st1 in
      (r :: rs, st2)
  end.

(** Evaluations of the bucketing strategy one after the other; each comes
    with the address of its coroutine object and its clock reading in
    seconds, the store's clock agreeing with the caller's. *)
Fixpoint bucketing_evaluations (self : Strategy) (request : Request)
  (calls : list (N * Z)) (st : store) : list (result RateLimitStatus) * store :=
  match calls with
  | [] => ([], st)
  | (addr, now) :: rest =>
      let '(r, st1) :=
        BucketingRateLimitStrategy.get_ratelimit_status self request addr now (now * 1000) st in
      let '(rs, st2) := bucketing_evaluations self request rest st1 in
      (r :: rs, st2)
  end.

(** The events of [ts] that an evaluation at [t] with horizon [h] still
    finds young enough, and the counts a run of evaluations at [times] is
    expected to return when the events [prev] came before. *)
Definition events_in_horizon (h t : Z) (ts : list Z) : list Z :=
  filter (λ p, t - h < p) ts.

Fixpoint horizon_counts (h : Z) (prev times : list Z) : list Z :=
  match times with
  | [] => []
  | t :: rest =>
      Z.of_nat (length (events_in_horizon h t (prev ++ [t])))
      :: horizon_counts h (prev ++ [t]) rest
  end.

(** *** Sample configurations *)

(** An identifier factory in the manner of the default one: the client's
    host, as a [str]. *)
Definition by_client_host (request : Request) : result pyobj :=
  Ok (PStr (client_host request)).

(** A request whose store client decodes replies, and the same request
    with a client left at its default (replies stay [bytes]). *)
Definition sample_request : Request :=
  mkRequest 0x7f3a5c1d2e80 "1.2.3.4" "/items" true.

Definition sample_request_raw_client : Request :=
  mkRequest 0x7f3a5c1d2e80 "1.2.3.4" "/items" false.

(** Rate [3/60s] and rate [3/10s], default prefix. *)
Definition strategy_3_per_60s : Strategy :=
  mkStrategy (Plain by_client_host) (mkConfig 3 60) DEFAULT_PREFIX.

Definition strategy_3_per_10s : Strategy :=
  mkStrategy (Plain by_client_host) (mkConfig 3 10) DEFAULT_PREFIX.

(** The same rate with an [async def] identifier factory. *)
Definition strategy_async_factory : Strategy :=
  mkStrategy (CoroutineFunction by_client_host) (mkConfig 3 60) DEFAULT_PREFIX.

(** A plain identifier factory that fails, and a strategy built on it. *)
Definition no_client_host (request : Request) : result pyobj :=
  Raise (UserError "client host unknown").

Definition strategy_failing_factory : Strategy :=
  mkStrategy (Plain no_client_host) (mkConfig 3 10) DEFAULT_PREFIX.

(** The store after one sliding-window evaluation of [sample_request] at
    1700000000000 ms on an empty store, rate [3/10s]. *)
Definition sample_ledger : gmap string entry :=
  (SlidingWindowLimitStrategy.get_ratelimit_status strategy_3_per_10s sample_request
     1700000000000 1700000000000 ∅).2.

Definition sample_key : string :=
  sliding_key strategy_3_per_10s (PStr "1.2.3.4").

End Strategies.

(* ================================================================= *)
(** * Properties *)

Import Redis Strategies.

(** ** Sanity checks of the library models against known values *)

Example crc32_check_value :
  Zlib.crc32 (list_byte_of_string "123456789") = 0xCBF43926.
Proof. vm_compute. reflexivity. Qed.

Example md5_abc :
  Hashlib.md5_hexdigest (list_byte_of_string "abc")
  = "900150983cd24fb0d6963f7d28e17f72".
Proof. vm_compute. reflexivity. Qed.

Example bytes_repr_example :
  py_str (PBytes (list_byte_of_string "1.2.3.4")) = "b'1.2.3.4'".
Proof. vm_compute. reflexivity. Qed.

Example create_storage_key_of_strings :
  _create_storage_key strategy_3_per_10s [PStr "1.2.3.4"; PStr "1700000000"]
  = Ok "rl:0e07e4e56e43fe166c45963437758862".
Proof. vm_compute. reflexivity. Qed.

(** ** [RateLimitStatus] *)

(** C9.  For every status, whatever its count and configuration, the
    remaining number of requests is [max_count - count] (possibly negative)
    and [should_limit] is exactly [count > max_count]; at
    [count = max_count] it is false. *)
Theorem C9_status_derived_fields (count : Z) (cfg : RateLimitConfig) (t : Z) :
  remaining_number_of_requests (mkStatus count cfg t) = max_count cfg - count
  ∧ should_limit (mkStatus count cfg t) = bool_decide (count > max_count cfg)
  ∧ should_limit (mkStatus (max_count cfg) cfg t) = false.
Proof.
  unfold remaining_number_of_requests, should_limit, limit; cbn.
  split; [reflexivity|]. split.
  - case_bool_decide; [apply Z.ltb_lt | apply Z.ltb_ge]; lia.
  - apply Z.ltb_irrefl.
Qed.

Example remaining_can_be_negative :
  remaining_number_of_requests (mkStatus 5 (mkConfig 3 60) 12) = -2.
Proof. reflexivity. Qed.

(** ** The window of the bucketing strategy *)

Section Window.

Variable self : Strategy.
Let period := period_in_seconds (_ratelimit_config self).

Lemma jitter_range (data : list byte) :
  0 < period → 0 ≤ jitter self data < period.
Proof. intros Hp. unfold jitter. apply Z.mod_pos_bound. exact Hp. Qed.

(** The value [_get_window] computes, in one expression. *)
Lemma get_window_eq (now : Z) (request_identifier : pyobj) (data : list byte) :
  period ≠ 0 →
  period = 1 ∨ identifier_bytes request_identifier = Some data →
  _get_window self now request_identifier =
    Ok (if period =? 1 then now
        else let w := (now - now mod period) + Zlib.crc32 data mod period in
             if w <? now then w + period else w).
Proof.
  intros Hp Hid. unfold _get_window. fold period.
  destruct (period =? 1) eqn:H1; [reflexivity|].
  destruct Hid as [->|Hid]; [discriminate|].
  assert (Hd : match request_identifier with
               | PBytes b => Ok b
               | PStr s => Ok (encode_utf8 s)
               | _ => Raise AttributeError
               end = Ok data).
  { destruct request_identifier; cbn in Hid; congruence. }
  rewrite Hd. unfold py_mod.
  destruct (period =? 0) eqn:H0; [apply Z.eqb_eq in H0; contradiction|].
  cbn. destruct (_ <? now); reflexivity.
Qed.

(** C5.  For every identifier and every [now], the window function returns
    [now] when the period is one second; otherwise it returns
    [w = (now - now mod period) + crc32(identifier bytes) mod period],
    advanced by one full period when that candidate is strictly less than
    [now].  (The period is positive, as the configuration guarantees; with a
    period other than one the identifier is a [bytes] or a [str].) *)
Theorem C5_get_window_formula (now : Z) (request_identifier : pyobj)
  (data : list byte) :
  0 < period →
  period = 1 ∨ identifier_bytes request_identifier = Some data →
  _get_window self now request_identifier =
    Ok (if period =? 1 then now
        else let w := (now - now mod period) + Zlib.crc32 data mod period in
             if w <? now then w + period else w).
Proof.
  intros Hp Hid. unfold _get_window. fold period.
  destruct (period =? 1) eqn:H1; [reflexivity|].
  destruct Hid as [Hone|Hid]; [rewrite Hone in H1; discriminate H1|].
  destruct request_identifier as [s|b|n|q a|r]; cbn in Hid; try discriminate Hid;
    injection Hid as <-.
  - unfold py_mod. destruct (Z.eqb_spec period 0) as [H0|_]; [lia|].
    cbn [mbind result_bind]. destruct (_ <? now); reflexivity.
  - unfold py_mod. destruct (Z.eqb_spec period 0) as [H0|_]; [lia|].
    cbn [mbind result_bind]. destruct (_ <? now); reflexivity.
Qed.

(** The window end as a function of the period an instant lies in. *)
Lemma get_window_in_period (now k : Z) (request_identifier : pyobj)
  (data : list byte) :
  0 < period →
  period = 1 ∨ identifier_bytes request_identifier = Some data →
  in_period self data k now →
  _get_window self now request_identifier = Ok (period_end self data k).
Proof.
  intros Hp Hid [Hlo Hhi].
  rewrite (get_window_eq now request_identifier data); [|lia|exact Hid].
  unfold period_end in *. fold period in Hlo, Hhi |- *.
  pose proof (jitter_range data Hp) as Hj.
  unfold jitter in *. fold period in Hj, Hlo, Hhi |- *.
  set (j := Zlib.crc32 data mod period) in *.
  f_equal.
  destruct (period =? 1) eqn:H1.
  - apply Z.eqb_eq in H1. lia.
  - pose proof (Z.div_mod now period ltac:(lia)) as Hdm.
    pose proof (Z.mod_pos_bound now period Hp) as Hr.
    set (q := now / period) in *. set (r := now mod period) in *.
    assert (Hbase : now - r = period * q) by lia.
    cbn zeta. rewrite Hbase.
    destruct (period * q + j <? now) eqn:Hw;
      [apply Z.ltb_lt in Hw | apply Z.ltb_ge in Hw].
    + assert (q + 1 = k) by nia. subst k. lia.
    + assert (q = k) by nia. subst k. lia.
Qed.

(** Every instant lies in a period of the identifier. *)
Lemma in_some_period (now : Z) (data : list byte) :
  0 < period → ∃ k, in_period self data k now.
Proof.
  intros Hp. pose proof (jitter_range data Hp) as Hj.
  unfold in_period, period_end. fold period.
  set (j := jitter self data) in *.
  pose proof (Z.div_mod (now - j - 1) period ltac:(lia)) as Hdm.
  pose proof (Z.mod_pos_bound (now - j - 1) period Hp) as Hr.
  exists ((now - j - 1) / period + 1). nia.
Qed.

(** C6.  For a fixed identifier and period, the window function returns a
    window end that is never before the supplied [now]; every later call up
    to that window end returns it again; and any two instants lying within
    the same period of the identifier get the same window end.  (The
    periods of an identifier are the stretches of [period] seconds between
    its consecutive jittered boundaries, see [in_period].) *)
Theorem C6_get_window_stable_within_period (now1 : Z)
  (request_identifier : pyobj) (data : list byte) :
  0 < period →
  period = 1 ∨ identifier_bytes request_identifier = Some data →
  (∃ w, _get_window self now1 request_identifier = Ok w
        ∧ now1 ≤ w
        ∧ ∀ now2, now1 ≤ now2 ≤ w →
            _get_window self now2 request_identifier = Ok w)
  ∧ (∀ k now2, in_period self data k now1 → in_period self data k now2 →
       _get_window self now2 request_identifier
       = _get_window self now1 request_identifier).
Proof.
  intros Hp Hid. split.
  - destruct (in_some_period now1 data Hp) as [k Hk].
    exists (period_end self data k). split; [|split].
    + apply get_window_in_period; assumption.
    + apply Hk.
    + intros now2 H2. apply get_window_in_period; [assumption..|].
      destruct Hk as [Hlo Hhi]. split; lia.
  - intros k now2 H1 H2.
    rewrite !(get_window_in_period _ k _ data); auto.
Qed.

(** C10.  For every identifier and every period of at least two seconds,
    the window end lies in [now, now + period), so the time left
    [window - now] lies in [0, period). *)
Theorem C10_get_window_upper_bound (now : Z) (request_identifier : pyobj)
  (data : list byte) :
  2 ≤ period →
  identifier_bytes request_identifier = Some data →
  ∃ w, _get_window self now request_identifier = Ok w
       ∧ now ≤ w < now + period
       ∧ 0 ≤ w - now < period.
Proof.
  intros Hp Hid.
  destruct (in_some_period now data ltac:(lia)) as [k [Hlo Hhi]].
  exists (period_end self data k). split.
  - apply get_window_in_period; [lia | right; exact Hid | split; assumption].
  - lia.
Qed.

End Window.

(** ** The store commands on a sorted-set key *)

Section SortedSetCommands.

Implicit Types (st : gmap string entry) (k m : string) (zs : zset).

Lemma get_insert now st k e :
  get now (<[k := e]> st) k = if live now e then Some e else None.
Proof. unfold get. rewrite lookup_insert_eq. reflexivity. Qed.

Lemma get_delete now st k : get now (delete k st) k = None.
Proof. unfold get. rewrite lookup_delete_eq. reflexivity. Qed.

Lemma get_Some_live now st k e : get now st k = Some e → live now e = true.
Proof.
  unfold get. destruct (st !! k) as [e'|]; [|discriminate].
  destruct (live now e') eqn:Hl; [|discriminate]. congruence.
Qed.

Lemma zset_at_insert now st k zs d :
  live now (mkEntry (VZSet zs) d) = true →
  zset_at now (<[k := mkEntry (VZSet zs) d]> st) k = zs.
Proof. intros Hl. unfold zset_at. rewrite get_insert, Hl. reflexivity. Qed.

Lemma zslice_all {A} (l : list A) : zslice 0 (-1) l = l.
Proof.
  unfold zslice. cbn [Z.ltb Z.compare].
  destruct l as [|x l]; [reflexivity|].
  set (len := Z.of_nat (length (x :: l))).
  assert (0 < len) by (unfold len; cbn [length]; lia).
  assert (H1 : (len + -1 <? 0) = false) by (apply Z.ltb_ge; lia).
  assert (H2 : (len <=? 0) = false) by (apply Z.leb_gt; lia).
  rewrite H1, H2. cbn [orb]. rewrite drop_0. apply take_ge. unfold len. lia.
Qed.

Lemma run_cons now c cs st :
  run now (c :: cs) st =
    let '(r, st1) := exec now c st in
    let '(rs, st2) := run now cs st1 in (r :: rs, st2).
Proof. reflexivity. Qed.

Lemma zadd_nil m s : zadd m s [] = [(m, s)].
Proof. reflexivity. Qed.

Lemma elem_of_zinsert (e x : string * Z) zs :
  x ∈ zinsert e zs ↔ x = e ∨ x ∈ zs.
Proof.
  induction zs as [|y zs IH]; cbn [zinsert].
  - rewrite list_elem_of_singleton, elem_of_nil. tauto.
  - destruct (entry_leb e y).
    + rewrite elem_of_cons. reflexivity.
    + rewrite !elem_of_cons, IH. tauto.
Qed.

Lemma elem_of_zadd m s zs (m' : string) (s' : Z) :
  (m', s') ∈ zadd m s zs ↔ (m' = m ∧ s' = s) ∨ (m' ≠ m ∧ (m', s') ∈ zs).
Proof.
  unfold zadd, zremove. rewrite elem_of_zinsert, list_elem_of_filter. cbn.
  split; intros [H|H]; try tauto.
  - left. inversion H. auto.
  - left. destruct H as [-> ->]. reflexivity.
Qed.

Lemma elem_of_zremrangebyscore min max zs (e : string * Z) :
  e ∈ zremrangebyscore min max zs ↔ e ∈ zs ∧ ¬ (min ≤ e.2 ≤ max).
Proof. unfold zremrangebyscore. rewrite list_elem_of_filter. unfold in_range. tauto. Qed.

(** ZREMRANGEBYSCORE, ZADD, ZRANGE 0 -1 and EXPIRE in a row, on a key that
    is absent or holds a sorted set: the replies and the final store. *)
Lemma run_prune_add_range_expire now st k min max m s seconds :
  0 < seconds →
  not_a_counter now st k →
  let final := zadd m s (zremrangebyscore min max (zset_at now st k)) in
  ∃ n1 n2,
    run now [ZREMRANGEBYSCORE k min max; ZADD k m s; ZRANGE k 0 (-1);
             EXPIRE k seconds] st
    = ([RInt n1; RInt n2; RMembers final.*1; RBool true],
       <[k := mkEntry (VZSet final) (Some (now + seconds * 1000))]> st).
Proof.
  intros Hsec Hnc final. unfold final, zset_at. clear final.
  assert (Hexp : ∀ st' zs d,
    live now (mkEntry (VZSet zs) d) = true →
    run now [ZRANGE k 0 (-1); EXPIRE k seconds] (<[k := mkEntry (VZSet zs) d]> st')
    = ([RMembers zs.*1; RBool true],
       <[k := mkEntry (VZSet zs) (Some (now + seconds * 1000))]> st')).
  { intros st' zs d Hl.
    assert (Hs : (seconds <=? 0) = false) by (apply Z.leb_gt; lia).
    cbn [run exec]. rewrite get_insert, Hl, zslice_all.
    cbn [run exec]. rewrite get_insert, Hl, Hs.
    cbn [value]. rewrite insert_insert_eq. reflexivity. }
  destruct (get now st k) as [[[n|zs] d]|] eqn:Hget.
  - exfalso. exact (Hnc n d Hget).
  - pose proof (get_Some_live _ _ _ _ Hget) as Hl.
    change (live now (mkEntry (VZSet zs) d)) with
      (live now (mkEntry (VZSet (zadd m s (zremrangebyscore min max zs))) d)) in Hl.
    rewrite run_cons. cbn [exec]. rewrite Hget.
    destruct (zremrangebyscore min max zs) as [|x rest] eqn:Hz.
    + rewrite run_cons. cbn [exec]. rewrite get_delete.
      rewrite (Hexp (delete k st) [(m, s)] None eq_refl).
      rewrite insert_delete_eq. eauto.
    + rewrite run_cons. cbn [exec]. rewrite get_insert.
      change (live now (mkEntry (VZSet (x :: rest)) d))
        with (live now (mkEntry (VZSet (zadd m s (x :: rest))) d)).
      rewrite Hl, insert_insert_eq, (Hexp st _ d Hl). eauto.
  - rewrite run_cons. cbn [exec]. rewrite Hget.
    rewrite run_cons. cbn [exec]. rewrite Hget.
    rewrite (Hexp st [(m, s)] None eq_refl). eauto.
Qed.

End SortedSetCommands.

(** ** The sliding-window strategy *)

Lemma length_append (s1 s2 : string) :
  String.length (s1 +:+ s2) = (String.length s1 + String.length s2)%nat.
Proof.
  induction s1 as [|c s1 IH]; [reflexivity|].
  simpl. f_equal. exact IH.
Qed.

Lemma append_inj_r (s1 s2 suffix : string) :
  s1 +:+ suffix = s2 +:+ suffix → s1 = s2.
Proof.
  intros H.
  assert (Hlen : String.length s1 = String.length s2).
  { apply (f_equal String.length) in H.
    rewrite !length_append in H. lia. }
  revert s2 H Hlen. induction s1 as [|c s1 IH]; intros [|c' s2] H Hlen;
    try discriminate; [reflexivity|].
  simpl in H, Hlen. injection H as -> H. f_equal. apply IH; [exact H | lia].
Qed.

Lemma sliding_member_inj (t t' : Z) :
  sliding_member t = sliding_member t' → t = t'.
Proof.
  unfold sliding_member, fmt_d. intros H.
  apply append_inj_r in H. exact (pretty_Z_inj _ _ H).
Qed.

Lemma last_split_suffix (s cur : string) :
  last (split_aux ":" (s +:+ ":1") cur) = Some "1"%string.
Proof.
  revert cur. induction s as [|c s IH]; intros cur.
  - reflexivity.
  - simpl. destruct (Ascii.eqb c ":"); [|apply IH].
    rewrite last_cons, IH. reflexivity.
Qed.

Lemma weight_sliding_member (t : Z) : weight (sliding_member t) = Ok 1.
Proof.
  unfold weight, sliding_member, split, last_item.
  rewrite last_split_suffix. reflexivity.
Qed.

Lemma sum_weights_entries (ts : list Z) :
  sum_weights (sliding_entry <$> ts).*1 = Ok (Z.of_nat (length ts)).
Proof.
  induction ts as [|t ts IH]; [reflexivity|].
  rewrite !fmap_cons. cbn [sum_weights sliding_entry fst length].
  rewrite weight_sliding_member, IH.
  cbn [mbind result_bind]. f_equal. lia.
Qed.

Lemma zremrangebyscore_younger (min max : Z) (ts : list Z) :
  (∀ p, p ∈ ts → max < p) →
  zremrangebyscore min max (sliding_entry <$> ts) = sliding_entry <$> ts.
Proof.
  induction ts as [|t ts IH]; intros H; [reflexivity|].
  rewrite fmap_cons. unfold zremrangebyscore in *.
  rewrite filter_cons_True.
  - f_equal. apply IH. intros p Hp. apply H. apply list_elem_of_further, Hp.
  - unfold in_range, sliding_entry. cbn [snd].
    specialize (H t (list_elem_of_here _ _)). lia.
Qed.

Lemma zremove_other_members (t : Z) (ts : list Z) :
  (∀ p, p ∈ ts → p < t) →
  zremove (sliding_member t) (sliding_entry <$> ts) = sliding_entry <$> ts.
Proof.
  induction ts as [|x ts IH]; intros H; [reflexivity|].
  rewrite fmap_cons. unfold zremove in *.
  rewrite filter_cons_True.
  - f_equal. apply IH. intros p Hp. apply H. apply list_elem_of_further, Hp.
  - unfold sliding_entry. cbn [fst]. intros Heq.
    apply sliding_member_inj in Heq.
    specialize (H x (list_elem_of_here _ _)). lia.
Qed.

Lemma zinsert_latest (t : Z) (ts : list Z) :
  (∀ p, p ∈ ts → p < t) →
  zinsert (sliding_entry t) (sliding_entry <$> ts)
  = sliding_entry <$> (ts ++ [t]).
Proof.
  induction ts as [|x ts IH]; intros H; [reflexivity|].
  cbn [app]. rewrite !fmap_cons. cbn [zinsert].
  specialize (H x (list_elem_of_here _ _)) as Hx.
  assert (Hle : entry_leb (sliding_entry t) (sliding_entry x) = false).
  { unfold entry_leb, sliding_entry. cbn [fst snd].
    assert (H1 : (t <? x) = false) by (apply Z.ltb_ge; lia).
    assert (H2 : (t =? x) = false) by (apply Z.eqb_neq; lia).
    rewrite H1, H2. reflexivity. }
  rewrite Hle. f_equal. apply IH.
  intros p Hp. apply H. apply list_elem_of_further, Hp.
Qed.

(** An evaluation at [t] over a ledger of younger-than-horizon, earlier
    events appends its own entry and removes nothing. *)
Lemma ledger_append (t horizon : Z) (ts : list Z) :
  (∀ p, p ∈ ts → t - horizon < p < t) →
  zadd (sliding_member t) t
    (zremrangebyscore 0 (t - horizon) (sliding_entry <$> ts))
  = sliding_entry <$> (ts ++ [t]).
Proof.
  intros H. rewrite zremrangebyscore_younger by (intros p Hp; apply H, Hp).
  unfold zadd. rewrite zremove_other_members by (intros p Hp; apply H, Hp).
  apply zinsert_latest. intros p Hp. apply H, Hp.
Qed.

(** *** What the client returns *)

Lemma all_ascii_cons (c : ascii) (s : string) :
  all_ascii (String c s) ↔ (N_of_ascii c < 128)%N ∧ all_ascii s.
Proof.
  unfold all_ascii. cbn [list_ascii_of_string].
  apply (Forall_cons (λ a, (N_of_ascii a < 128)%N)).
Qed.

Lemma all_ascii_append (s1 s2 : string) :
  all_ascii s1 → all_ascii s2 → all_ascii (s1 +:+ s2).
Proof.
  induction s1 as [|c s1 IH]; intros H1 H2; [exact H2|].
  simpl. apply all_ascii_cons. apply all_ascii_cons in H1 as [Hc H1].
  split; [exact Hc | apply IH; assumption].
Qed.

Lemma valid_utf8_ascii (s : string) : all_ascii s → valid_utf8 s = true.
Proof.
  unfold valid_utf8. induction s as [|c s IH]; intros H; [reflexivity|].
  apply all_ascii_cons in H as [Hc H]. specialize (IH H).
  cbn [utf8_decode]. apply N.ltb_lt in Hc. rewrite Hc.
  destruct (utf8_decode s); [reflexivity | discriminate IH].
Qed.

Lemma pretty_N_char_ascii (x : N) : (N_of_ascii (pretty_N_char x) < 128)%N.
Proof. unfold pretty_N_char. repeat case_match; reflexivity. Qed.

Lemma pretty_N_go_ascii (x : N) (s : string) :
  all_ascii s → all_ascii (pretty_N_go x s).
Proof.
  revert s. induction (N.lt_wf_0 x) as [x _ IH]; intros s Hs.
  destruct (decide (x = 0)%N) as [->|Hx]; [exact Hs|].
  rewrite pretty_N_go_step by lia. apply IH.
  - apply N.div_lt; lia.
  - apply all_ascii_cons. split; [apply pretty_N_char_ascii | exact Hs].
Qed.

Lemma pretty_N_ascii (x : N) : all_ascii (pretty x).
Proof.
  unfold pretty, pretty_N. destruct (decide (x = 0)%N).
  - repeat constructor.
  - apply pretty_N_go_ascii. constructor.
Qed.

Lemma pretty_Z_ascii (x : Z) : all_ascii (pretty x).
Proof.
  destruct x as [|p|p]; unfold pretty, pretty_Z.
  - repeat constructor.
  - apply pretty_N_ascii.
  - apply all_ascii_append; [repeat constructor | apply pretty_N_ascii].
Qed.

Lemma valid_sliding_member (t : Z) : valid_utf8 (sliding_member t) = true.
Proof.
  apply valid_utf8_ascii. unfold sliding_member, fmt_d.
  apply all_ascii_append; [apply pretty_Z_ascii | repeat constructor].
Qed.

Lemma client_members_decoded (l : list string) :
  (∀ m, m ∈ l → valid_utf8 m = true) →
  mapM (client_member true) l = Ok (PStr <$> l).
Proof.
  induction l as [|m l IH]; intros H; [reflexivity|].
  cbn [mapM client_member]. rewrite (H m (list_elem_of_here _ _)).
  cbn [mbind result_bind].
  rewrite IH by (intros m' Hm'; apply H, list_elem_of_further, Hm').
  reflexivity.
Qed.

Lemma client_members_raw (l : list string) :
  mapM (client_member false) l = Ok ((λ m, PBytes (list_byte_of_string m)) <$> l).
Proof.
  induction l as [|m l IH]; [reflexivity|].
  cbn [mapM client_member mbind result_bind]. rewrite IH. reflexivity.
Qed.

Lemma sum_weights_of_str (l : list string) :
  sum_weights_of (PStr <$> l) = sum_weights l.
Proof.
  induction l as [|m l IH]; [reflexivity|].
  rewrite fmap_cons. cbn [sum_weights_of sum_weights weight_of]. rewrite IH.
  reflexivity.
Qed.

Lemma valid_entries (ts : list Z) (m : string) :
  m ∈ (sliding_entry <$> ts).*1 → valid_utf8 m = true.
Proof.
  intros Hm. apply list_elem_of_fmap in Hm as [[m' s] [-> Hm]].
  apply list_elem_of_fmap in Hm as [t [Heq _]].
  injection Heq as -> _. apply valid_sliding_member.
Qed.

Section Sliding.

Variable self : Strategy.
Variable request : Request.
Variable request_identifier : pyobj.
Hypothesis resolved : _get_request_identifier self request = Ok request_identifier.

Let cfg := _ratelimit_config self.
Let period := period_in_seconds cfg.
Let key := sliding_key self request_identifier.
Hypothesis period_pos : 0 < period.

(** The set an evaluation leaves under the key. *)
Let ledger_after (epoch_ms srv_ms : Z) (st : gmap string entry) : zset :=
  zadd (sliding_member epoch_ms) epoch_ms
    (zremrangebyscore 0 (epoch_ms - period * 100) (zset_at srv_ms st key)).

(** One evaluation on a key that is absent or holds a sorted set. *)
Lemma sliding_evaluation (epoch_ms srv_ms : Z) (st : gmap string entry) :
  not_a_counter srv_ms st key →
  SlidingWindowLimitStrategy.get_ratelimit_status self request epoch_ms srv_ms st =
    (members ← mapM (client_member (redis_decode_responses request))
                 (ledger_after epoch_ms srv_ms st).*1;
     n ← sum_weights_of members;
     Ok (mkStatus n cfg (-1)),
     <[key := mkEntry (VZSet (ledger_after epoch_ms srv_ms st))
                (Some (srv_ms + sliding_ttl_ms self))]> st).
Proof.
  intros Hnc. unfold SlidingWindowLimitStrategy.get_ratelimit_status. rewrite resolved.
  fold key. unfold execute, sliding_pipeline. fold cfg; fold period.
  destruct (run_prune_add_range_expire srv_ms st key 0 (epoch_ms - period * 100)
              (sliding_member epoch_ms) epoch_ms (period * 1000 + 1)
              ltac:(lia) Hnc) as (n1 & n2 & ->).
  reflexivity.
Qed.

(** One evaluation on a key that holds an integer: the store reports the
    wrong type and no status is produced. *)
Lemma sliding_evaluation_on_counter (epoch_ms srv_ms : Z)
  (st : gmap string entry) (n : Z) (d : option Z) :
  get srv_ms st key = Some (mkEntry (VInt n) d) →
  (SlidingWindowLimitStrategy.get_ratelimit_status self request epoch_ms srv_ms st).1
  = Raise (ResponseError WRONGTYPE).
Proof.
  intros Hget. unfold SlidingWindowLimitStrategy.get_ratelimit_status. rewrite resolved.
  fold key. unfold execute, sliding_pipeline.
  rewrite run_cons. cbn [exec]. rewrite Hget.
  rewrite run_cons. cbn [exec]. rewrite Hget.
  rewrite run_cons. cbn [exec]. rewrite Hget.
  rewrite run_cons. cbn [exec]. rewrite Hget.
  destruct (_ <=? 0); reflexivity.
Qed.

Lemma zset_at_after (epoch_ms srv_ms : Z) (st : gmap string entry) :
  not_a_counter srv_ms st key →
  zset_at srv_ms
    (SlidingWindowLimitStrategy.get_ratelimit_status self request epoch_ms srv_ms st).2
    key
  = ledger_after epoch_ms srv_ms st.
Proof.
  intros Hnc. rewrite sliding_evaluation by exact Hnc. cbn [snd].
  apply zset_at_insert. unfold live, sliding_ttl_ms. cbn [deadline].
  fold cfg; fold period. apply Z.ltb_lt. lia.
Qed.

End Sliding.

(** What one evaluation leaves under the key: the entries it found, less
    those whose score lies between 0 and [epoch_ms - period_in_seconds * 100]
    (the cut-off the pipeline passes to ZREMRANGEBYSCORE), plus its own
    entry. *)
Lemma sliding_prune_cutoff (self : Strategy) (request : Request)
  (request_identifier : pyobj) (epoch_ms srv_ms : Z) (st : gmap string entry)
  (m : string) (s : Z) :
  _get_request_identifier self request = Ok request_identifier →
  0 < period_in_seconds (_ratelimit_config self) →
  not_a_counter srv_ms st (sliding_key self request_identifier) →
  (m, s) ∈ zset_at srv_ms
             (SlidingWindowLimitStrategy.get_ratelimit_status self request epoch_ms srv_ms st).2
             (sliding_key self request_identifier)
  ↔ (m = sliding_member epoch_ms ∧ s = epoch_ms)
    ∨ (m ≠ sliding_member epoch_ms
       ∧ (m, s) ∈ zset_at srv_ms st (sliding_key self request_identifier)
       ∧ ¬ (0 ≤ s ≤ epoch_ms - period_in_seconds (_ratelimit_config self) * 100)).
Proof.
  intros Hid Hp Hnc.
  rewrite (zset_at_after self request request_identifier Hid Hp) by exact Hnc.
  rewrite elem_of_zadd, elem_of_zremrangebyscore. cbn [snd]. tauto.
Qed.

(** C1.  Rate 3/10s: an event recorded at 1700000000000 ms is in the
    identifier's ordered set; the evaluation two seconds later removes it,
    although it is far younger than the 10 * 100 seconds the retention
    horizon is meant to span.  The cut-off the pipeline computes is
    [epoch_ms - period_in_seconds * 100], seconds times 100 taken off a
    millisecond reading, that is one second back. *)
Theorem C1_two_second_old_event_is_pruned :
  ("1700000000000:1"%string, 1700000000000) ∈
    zset_at 1700000002000 sample_ledger sample_key
  ∧ 1700000002000 - 10 * 100 * 1000 < 1700000000000
  ∧ ("1700000000000:1"%string, 1700000000000) ∉
      zset_at 1700000002000
        (SlidingWindowLimitStrategy.get_ratelimit_status strategy_3_per_10s sample_request
           1700000002000 1700000002000 sample_ledger).2
        sample_key.
Proof.
  split; [|split].
  - apply (bool_decide_unpack _). vm_compute. exact I.
  - reflexivity.
  - apply (bool_decide_unpack _). vm_compute. exact I.
Qed.

(** C8.  Period 10 seconds, five events one second apart recorded into an
    absent set, all within 10 * 100 seconds.  With a client that decodes
    replies the fifth evaluation counts 1 instead of 5: each evaluation has
    removed the entries a second old or more (the cut-off of the pruning is
    [period_in_seconds * 100] milliseconds back).  With a client left at
    its default the members come back as [bytes] and the fifth evaluation,
    like every other, raises [TypeError] at the sum. *)
Theorem C8_five_events_one_second_apart :
  1700000004000 - 10 * 100 * 1000 < 1700000000000
  ∧ (sliding_evaluations strategy_3_per_10s sample_request
       [1700000000000; 1700000001000; 1700000002000; 1700000003000;
        1700000004000] ∅).1 !! 4%nat
    = Some (Ok (mkStatus 1 (mkConfig 3 10) (-1)))
  ∧ (sliding_evaluations strategy_3_per_10s sample_request_raw_client
       [1700000000000; 1700000001000; 1700000002000; 1700000003000;
        1700000004000] ∅).1 !! 4%nat
    = Some (Raise TypeError).
Proof. split; [reflexivity | split; vm_compute; reflexivity]. Qed.

(** ** Witnesses for the window properties *)

Lemma C5_get_window_formula_witness :
  0 < period_in_seconds (_ratelimit_config strategy_3_per_10s)
  ∧ (period_in_seconds (_ratelimit_config strategy_3_per_10s) = 1
     ∨ identifier_bytes (PStr "1.2.3.4") = Some (list_byte_of_string "1.2.3.4"))
  ∧ _get_window strategy_3_per_10s 1700000008 (PStr "1.2.3.4") = Ok 1700000017.
Proof.
  split; [reflexivity|]. split; [right; reflexivity|].
  rewrite (C5_get_window_formula strategy_3_per_10s 1700000008 (PStr "1.2.3.4")
             (list_byte_of_string "1.2.3.4") eq_refl (or_intror eq_refl)).
  vm_compute. reflexivity.
Defined.

Lemma C6_get_window_stable_within_period_witness :
  0 < period_in_seconds (_ratelimit_config strategy_3_per_10s)
  ∧ in_period strategy_3_per_10s (list_byte_of_string "1.2.3.4") 170000000 1700000003
  ∧ in_period strategy_3_per_10s (list_byte_of_string "1.2.3.4") 170000000 1700000007
  ∧ (∃ w, _get_window strategy_3_per_10s 1700000003 (PStr "1.2.3.4") = Ok w
          ∧ 1700000003 ≤ w
          ∧ ∀ now2, 1700000003 ≤ now2 ≤ w →
              _get_window strategy_3_per_10s now2 (PStr "1.2.3.4") = Ok w)
  ∧ _get_window strategy_3_per_10s 1700000007 (PStr "1.2.3.4")
    = _get_window strategy_3_per_10s 1700000003 (PStr "1.2.3.4").
Proof.
  assert (H1 : in_period strategy_3_per_10s (list_byte_of_string "1.2.3.4")
                 170000000 1700000003).
  { vm_compute. split; [reflexivity | discriminate]. }
  assert (H2 : in_period strategy_3_per_10s (list_byte_of_string "1.2.3.4")
                 170000000 1700000007).
  { vm_compute. split; [reflexivity | discriminate]. }
  destruct (C6_get_window_stable_within_period strategy_3_per_10s 1700000003
              (PStr "1.2.3.4") (list_byte_of_string "1.2.3.4")
              eq_refl (or_intror eq_refl)) as [Hge Hsame].
  split; [reflexivity|]. split; [exact H1|]. split; [exact H2|].
  split; [exact Hge|]. exact (Hsame 170000000 1700000007 H1 H2).
Defined.

Lemma C10_get_window_upper_bound_witness :
  2 ≤ period_in_seconds (_ratelimit_config strategy_3_per_10s)
  ∧ identifier_bytes (PStr "1.2.3.4") = Some (list_byte_of_string "1.2.3.4")
  ∧ ∃ w, _get_window strategy_3_per_10s 1700000008 (PStr "1.2.3.4") = Ok w
         ∧ 1700000008 ≤ w < 1700000008 + 10
         ∧ 0 ≤ w - 1700000008 < 10.
Proof.
  split; [discriminate|]. split; [reflexivity|].
  exact (C10_get_window_upper_bound strategy_3_per_10s 1700000008
           (PStr "1.2.3.4") (list_byte_of_string "1.2.3.4")
           ltac:(discriminate) eq_refl).
Defined.

(** Two instants of one epoch-aligned stretch [k * period, (k + 1) * period)
    can lie on either side of the identifier's jittered boundary, and then
    belong to different periods. *)
Example window_across_the_boundary :
  1700000003 / 10 = 1700000008 / 10
  ∧ _get_window strategy_3_per_10s 1700000003 (PStr "1.2.3.4") = Ok 1700000007
  ∧ _get_window strategy_3_per_10s 1700000008 (PStr "1.2.3.4") = Ok 1700000017.
Proof. vm_compute. repeat split; reflexivity. Qed.

(** ** Identifier resolution *)

(** A plain factory is called and its outcome is the identifier. *)
Lemma get_request_identifier_plain (f : Request → result pyobj)
  (cfg : RateLimitConfig) (prefix : string) (request : Request) :
  _get_request_identifier (mkStrategy (Plain f) cfg prefix) request = f request.
Proof. reflexivity. Qed.

(** A failed resolution leaves both strategies with that failure and the
    store as it was. *)
Lemma resolution_failure_propagates (self : Strategy) (request : Request)
  (e : exn) (addr : N) (now epoch_ms srv_ms : Z) (st : gmap string entry) :
  _get_request_identifier self request = Raise e →
  BucketingRateLimitStrategy.get_ratelimit_status self request addr now srv_ms st
  = (Raise e, st)
  ∧ SlidingWindowLimitStrategy.get_ratelimit_status self request epoch_ms srv_ms st
    = (Raise e, st).
Proof.
  intros H.
  unfold BucketingRateLimitStrategy.get_ratelimit_status,
    SlidingWindowLimitStrategy.get_ratelimit_status.
  rewrite H. split; reflexivity.
Qed.

(** C4.  With an [async def] identifier factory the strategies never call
    or await the factory: looking up [_response_on_limit_exceeded] raises
    [AttributeError], whatever the factory would have produced, and the
    store is left as it was. *)
Theorem C4_async_factory_is_never_awaited (f : Request → result pyobj)
  (cfg : RateLimitConfig) (prefix : string) (request : Request)
  (addr : N) (now epoch_ms srv_ms : Z) (st : gmap string entry) :
  _get_request_identifier (mkStrategy (CoroutineFunction f) cfg prefix) request
  = Raise AttributeError
  ∧ SlidingWindowLimitStrategy.get_ratelimit_status (mkStrategy (CoroutineFunction f) cfg prefix)
      request epoch_ms srv_ms st = (Raise AttributeError, st)
  ∧ BucketingRateLimitStrategy.get_ratelimit_status (mkStrategy (CoroutineFunction f) cfg prefix)
      request addr now srv_ms st = (Raise AttributeError, st).
Proof. repeat split; reflexivity. Qed.

Example async_factory_sample :
  by_client_host sample_request = Ok (PStr "1.2.3.4")
  ∧ _get_request_identifier strategy_async_factory sample_request
    = Raise AttributeError.
Proof. split; reflexivity. Qed.

(** ** The bucketing strategy *)

(** On parts that are all [str], the key is the prefix followed by the MD5
    of the rate and the parts. *)
Lemma create_storage_key_strings (self : Strategy) (a b : string) :
  _create_storage_key self [PStr a; PStr b]
  = Ok (_prefix self
        +:+ Hashlib.md5_hexdigest
              (encode_utf8
                 ((fmt_d (max_count (_ratelimit_config self)) +:+ "/"
                   +:+ fmt_d (period_in_seconds (_ratelimit_config self)) +:+ "s")
                  +:+ a +:+ b +:+ EmptyString))).
Proof. reflexivity. Qed.

(** The pipeline of the bucketing strategy, were it reached: INCR then
    EXPIRE on a key that is absent, or holds a count below the 64-bit
    limit, replies with the next count. *)
Lemma incr_expire_counts (now : Z) (st : gmap string entry) (k : string)
  (seconds n : Z) :
  0 < seconds →
  n < 2 ^ 63 - 1 →
  (get now st k = None ∧ n = 0)
  ∨ (∃ d, get now st k = Some (mkEntry (VInt n) d)) →
  execute now [INCR k; EXPIRE k seconds] st
  = (Ok [RInt (n + 1); RBool true],
     <[k := mkEntry (VInt (n + 1)) (Some (now + seconds * 1000))]> st).
Proof.
  intros Hs Hn Hget.
  assert (Hsec : (seconds <=? 0) = false) by (apply Z.leb_gt; lia).
  assert (Hlt : (n <? 2 ^ 63 - 1) = true) by (apply Z.ltb_lt; lia).
  unfold execute. rewrite run_cons. cbn [exec].
  destruct Hget as [[Hget ->]|[d Hget]]; rewrite Hget.
  - rewrite run_cons. cbn [exec run]. rewrite get_insert. cbn [live deadline].
    rewrite Hsec. cbn [value]. rewrite insert_insert_eq. reflexivity.
  - pose proof (get_Some_live _ _ _ _ Hget) as Hl.
    rewrite Hlt. rewrite run_cons. cbn [exec run]. rewrite get_insert.
    change (live now (mkEntry (VInt (n + 1)) d)) with (live now (mkEntry (VInt n) d)).
    rewrite Hl, Hsec. cbn [value]. rewrite insert_insert_eq. reflexivity.
Qed.

(** The key derivation of [get_ratelimit_status] is handed the request
    object itself as its first part, and [str.join] rejects it. *)
Lemma create_storage_key_with_request (self : Strategy) (request : Request)
  (parts : list pyobj) :
  _create_storage_key self (PRequest request :: parts) = Raise TypeError.
Proof. reflexivity. Qed.

(** No evaluation of the bucketing strategy returns a status or reaches the
    store. *)
Lemma bucketing_always_raises (self : Strategy) (request : Request)
  (addr : N) (now srv_ms : Z) (st : gmap string entry) :
  ∃ e, BucketingRateLimitStrategy.get_ratelimit_status self request addr now srv_ms st
       = (Raise e, st).
Proof.
  unfold BucketingRateLimitStrategy.get_ratelimit_status.
  destruct (_get_request_identifier self request) as [request_identifier|e].
  - rewrite create_storage_key_with_request. eauto.
  - eauto.
Qed.

(** C2.  In an evaluation of the bucketing strategy the storage key is
    derived from the request object, the identifier and the text of an
    un-awaited coroutine object (which carries the object's address, not
    the window): the derivation raises [TypeError] and yields no key, for
    every configuration, identifier and address. *)
Theorem C2_storage_key_derivation_raises (self : Strategy) (request : Request)
  (request_identifier : pyobj) (addr : N) :
  _create_storage_key self
    [PRequest request; request_identifier; PStr (py_str (call_get_window addr))]
  = Raise TypeError
  ∧ py_str (call_get_window addr)
    = "<coroutine object BucketingRateLimitStrategy._get_window at "
      +:+ hex addr +:+ ">".
Proof. split; reflexivity. Qed.

(** C3.  Rate 3/60s, a fresh store, four evaluations in a row for one
    client within one window: instead of the counts 1, 2, 3, 4 every
    evaluation raises [TypeError], and the store is never written. *)
Theorem C3_bucketing_four_calls_raise :
  bucketing_evaluations strategy_3_per_60s sample_request
    [(0x7f3a5c200040%N, 1700000000); (0x7f3a5c200040%N, 1700000001);
     (0x7f3a5c2000c0%N, 1700000002); (0x7f3a5c2000c0%N, 1700000003)] ∅
  = ([Raise TypeError; Raise TypeError; Raise TypeError; Raise TypeError], ∅).
Proof. vm_compute. reflexivity. Qed.

(** C7.  No evaluation of the bucketing strategy returns a status, so none
    carries a time left; and the expression meant to compute it subtracts
    the clock reading from a coroutine object, which raises [TypeError]. *)
Theorem C7_bucketing_time_left_is_never_computed (self : Strategy)
  (request : Request) (addr : N) (now srv_ms : Z) (st : gmap string entry) :
  is_ok (BucketingRateLimitStrategy.get_ratelimit_status self request addr now srv_ms st).1 = false
  ∧ (BucketingRateLimitStrategy.get_ratelimit_status self request addr now srv_ms st).2 = st
  ∧ sub_int (call_get_window addr) now = Raise TypeError.
Proof.
  destruct (bucketing_always_raises self request addr now srv_ms st) as [e ->].
  repeat split; reflexivity.
Qed.

(* ================================================================= *)
(** * Further properties of the module *)

(** ** [RateLimitStatus]: the two derived fields agree *)

(** The status asks for limiting exactly when the remaining number of
    requests has gone below zero. *)
Theorem should_limit_iff_remaining_negative (d : RateLimitStatus) :
  should_limit d = true ↔ remaining_number_of_requests d < 0.
Proof.
  unfold should_limit, remaining_number_of_requests.
  rewrite Z.ltb_lt. lia.
Qed.

(** ** More on the window of the bucketing strategy *)

Section WindowOrder.

Variable self : Strategy.
Let period := period_in_seconds (_ratelimit_config self).

(** Every window end of an identifier is congruent to the identifier's
    checksum modulo the period: the boundaries of one identifier are a
    fixed grid, shifted by its jitter. *)
Theorem get_window_congruent_to_crc32 (now : Z) (request_identifier : pyobj)
  (data : list byte) :
  0 < period →
  identifier_bytes request_identifier = Some data →
  ∃ w, _get_window self now request_identifier = Ok w
       ∧ (w - Zlib.crc32 data) mod period = 0.
Proof.
  intros Hp Hid.
  destruct (in_some_period self now data Hp) as [k Hk].
  exists (period_end self data k). split.
  - apply get_window_in_period; [exact Hp | right; exact Hid | exact Hk].
  - unfold period_end, jitter. fold period.
    pose proof (Z.div_mod (Zlib.crc32 data) period ltac:(lia)) as Hdm.
    replace (k * period + Zlib.crc32 data mod period - Zlib.crc32 data)
      with ((k - Zlib.crc32 data / period) * period) by lia.
    apply Z.mod_mul. lia.
Qed.

(** The window end never moves backwards as time passes. *)
Theorem get_window_monotone (now1 now2 : Z) (request_identifier : pyobj)
  (data : list byte) :
  0 < period →
  period = 1 ∨ identifier_bytes request_identifier = Some data →
  now1 ≤ now2 →
  ∃ w1 w2, _get_window self now1 request_identifier = Ok w1
           ∧ _get_window self now2 request_identifier = Ok w2
           ∧ w1 ≤ w2.
Proof.
  intros Hp Hid Hle.
  destruct (in_some_period self now1 data Hp) as [k1 Hk1].
  destruct (in_some_period self now2 data Hp) as [k2 Hk2].
  exists (period_end self data k1), (period_end self data k2).
  split; [|split].
  - apply get_window_in_period; assumption.
  - apply get_window_in_period; assumption.
  - destruct Hk1 as [Hlo1 Hhi1], Hk2 as [Hlo2 Hhi2].
    unfold period_end in *. fold period in Hlo1, Hhi1, Hlo2, Hhi2 |- *.
    assert (k1 ≤ k2) by nia. nia.
Qed.

(** Once the clock passes a window end, the window end of the whole next
    period is that one plus exactly one period. *)
Theorem get_window_advances_by_one_period (now : Z)
  (request_identifier : pyobj) (data : list byte) :
  0 < period →
  period = 1 ∨ identifier_bytes request_identifier = Some data →
  ∃ w, _get_window self now request_identifier = Ok w
       ∧ ∀ later, w < later ≤ w + period →
           _get_window self later request_identifier = Ok (w + period).
Proof.
  intros Hp Hid.
  destruct (in_some_period self now data Hp) as [k Hk].
  exists (period_end self data k). split.
  - apply get_window_in_period; assumption.
  - intros later Hlater.
    replace (period_end self data k + period) with (period_end self data (k + 1))
      by (unfold period_end; fold period; lia).
    apply get_window_in_period; [assumption..|].
    unfold in_period, period_end in *. fold period in Hk, Hlater |- *. lia.
Qed.


End WindowOrder.

(** ** More on the storage key *)

Lemma join_strings (l : list string) :
  join (PStr <$> l) = Ok (concat_str l).
Proof.
  induction l as [|x l IH]; [reflexivity|].
  rewrite fmap_cons. cbn [join]. rewrite IH. reflexivity.
Qed.






(** The parts are joined without a separator, so the key depends only on
    the characters of the parts taken together: two lists of [str] parts
    with the same concatenation get the same key. *)
Theorem create_storage_key_of_concatenation (self : Strategy)
  (parts1 parts2 : list string) :
  concat_str parts1 = concat_str parts2 →
  _create_storage_key self (PStr <$> parts1)
  = _create_storage_key self (PStr <$> parts2).
Proof.
  intros H. unfold _create_storage_key.
  rewrite <- !fmap_cons, !join_strings.
  cbn [concat_str foldr]. fold (concat_str parts1). fold (concat_str parts2).
  rewrite H. reflexivity.
Qed.

Lemma create_storage_key_of_concatenation_witness :
  concat_str ["1.2.3.4"; "1700000000"] = concat_str ["1.2.3.41"; "700000000"]
  ∧ _create_storage_key strategy_3_per_60s [PStr "1.2.3.4"; PStr "1700000000"]
    = _create_storage_key strategy_3_per_60s [PStr "1.2.3.41"; PStr "700000000"].
Proof.
  split; [reflexivity|].
  exact (create_storage_key_of_concatenation strategy_3_per_60s
           ["1.2.3.4"; "1700000000"] ["1.2.3.41"; "700000000"] eq_refl).
Defined.

(** ** More on the sliding-window strategy *)

Lemma filter_all {A} (P : A → Prop) `{Pdec : !∀ x, Decision (P x)} (l : list A) :
  (∀ x, x ∈ l → P x) → filter P l = l.
Proof.
  induction l as [|x l IH]; intros H; [reflexivity|].
  rewrite filter_cons_True by (apply H, list_elem_of_here).
  f_equal. apply IH. intros y Hy. apply H, list_elem_of_further, Hy.
Qed.

Lemma filter_none {A} (P : A → Prop) `{Pdec : !∀ x, Decision (P x)} (l : list A) :
  (∀ x, x ∈ l → ¬ P x) → filter P l = [].
Proof.
  induction l as [|x l IH]; intros H; [reflexivity|].
  rewrite filter_cons_False by (apply H, list_elem_of_here).
  apply IH. intros y Hy. apply H, list_elem_of_further, Hy.
Qed.

(** Filtering out the entry just inserted gives back the list it was
    inserted into. *)
Lemma filter_zinsert_dropped (Q : string * Z → Prop) `{Qdec : !∀ x, Decision (Q x)}
  (e : string * Z) (zs : list (string * Z)) :
  ¬ Q e → (∀ x, x ∈ zs → Q x) → filter Q (zinsert e zs) = zs.
Proof.
  intros He. induction zs as [|x zs IH]; intros H; cbn [zinsert].
  - apply filter_none. intros y Hy. apply list_elem_of_singleton in Hy.
    subst y. exact He.
  - destruct (entry_leb e x).
    + rewrite filter_cons_False by exact He. apply filter_all. exact H.
    + rewrite filter_cons_True by (apply H, list_elem_of_here).
      f_equal. apply IH. intros y Hy. apply H, list_elem_of_further, Hy.
Qed.

(** Pruning and adding the same entry a second time changes nothing. *)
Lemma zadd_after_zadd (m : string) (t min max : Z) (zs : list (string * Z)) :
  ¬ (min ≤ t ≤ max) →
  zadd m t (zremrangebyscore min max (zadd m t (zremrangebyscore min max zs)))
  = zadd m t (zremrangebyscore min max zs).
Proof.
  intros Ht.
  set (X := zremove m (zremrangebyscore min max zs)).
  assert (HX1 : ∀ x, x ∈ X → ¬ in_range min max x).
  { intros x Hx. unfold X, zremove in Hx.
    apply list_elem_of_filter in Hx as [_ Hx].
    apply elem_of_zremrangebyscore in Hx as [_ Hx]. exact Hx. }
  assert (HX2 : ∀ x : string * Z, x ∈ X → x.1 ≠ m).
  { intros x Hx. unfold X, zremove in Hx.
    apply list_elem_of_filter in Hx as [Hx _]. exact Hx. }
  unfold zadd at 2. fold X.
  assert (Hkeep : zremrangebyscore min max (zinsert (m, t) X) = zinsert (m, t) X).
  { apply filter_all. intros x Hx. apply elem_of_zinsert in Hx as [->|Hx].
    - exact Ht.
    - apply HX1, Hx. }
  rewrite Hkeep. unfold zadd, zremove. fold X.
  rewrite (filter_zinsert_dropped (λ e : string * Z, e.1 ≠ m)); [reflexivity | | exact HX2].
  cbn [fst]. intros Hne. apply Hne. reflexivity.
Qed.

Lemma exec_frame (now : Z) (c : command) (st : gmap string entry) (k' : string) :
  k' ≠ key_of c → (exec now c st).2 !! k' = st !! k'.
Proof.
  intros Hne. destruct c; cbn [exec key_of] in *;
    repeat case_match; cbn [snd];
    rewrite ?lookup_insert_ne, ?lookup_delete_ne by congruence; reflexivity.
Qed.

Lemma run_frame (now : Z) (cmds : list command) (st : gmap string entry)
  (k' : string) :
  (∀ c, c ∈ cmds → k' ≠ key_of c) → (run now cmds st).2 !! k' = st !! k'.
Proof.
  revert st. induction cmds as [|c cmds IH]; intros st H; [reflexivity|].
  rewrite run_cons.
  pose proof (exec_frame now c st k' (H c (list_elem_of_here _ _))) as Hc.
  destruct (exec now c st) as [r st1]. cbn [snd] in Hc.
  specialize (IH st1 (λ c' Hc', H c' (list_elem_of_further _ _ _ Hc'))).
  destruct (run now cmds st1) as [rs st2]. cbn [snd] in *.
  rewrite IH. exact Hc.
Qed.

(** An evaluation reads and writes the key of its own identifier only:
    every other key of the store is as it was, whether the evaluation
    returns a status or raises. *)
Theorem sliding_touches_only_its_key (self : Strategy) (request : Request)
  (epoch_ms srv_ms : Z) (st : gmap string entry) (k' : string) :
  (∀ request_identifier,
     _get_request_identifier self request = Ok request_identifier →
     k' ≠ sliding_key self request_identifier) →
  (SlidingWindowLimitStrategy.get_ratelimit_status self request epoch_ms srv_ms st).2
    !! k'
  = st !! k'.
Proof.
  intros Hk. unfold SlidingWindowLimitStrategy.get_ratelimit_status.
  destruct (_get_request_identifier self request) as [request_identifier|e];
    [|reflexivity].
  specialize (Hk request_identifier eq_refl).
  unfold execute.
  pose proof (run_frame srv_ms
    (sliding_pipeline self (sliding_key self request_identifier) epoch_ms)
    st k') as Hrun.
  destruct (run srv_ms _ st) as [rs st']. cbn [snd] in *.
  apply Hrun. intros c Hc. unfold sliding_pipeline in Hc.
  rewrite !elem_of_cons, elem_of_nil in Hc.
  destruct Hc as [->|[->|[->|[->|[]]]]]; exact Hk.
Qed.

Lemma sliding_touches_only_its_key_witness :
  (∀ request_identifier,
     _get_request_identifier strategy_3_per_10s sample_request
     = Ok request_identifier →
     "rl::5.6.7.8"%string ≠ sliding_key strategy_3_per_10s request_identifier)
  ∧ (SlidingWindowLimitStrategy.get_ratelimit_status strategy_3_per_10s
       sample_request 1700000000500 1700000000500
       (<["rl::5.6.7.8"%string :=
            mkEntry (VZSet [("1700000000100:1"%string, 1700000000100)]) None]>
          sample_ledger)).2 !! "rl::5.6.7.8"%string
    = (<["rl::5.6.7.8"%string :=
           mkEntry (VZSet [("1700000000100:1"%string, 1700000000100)]) None]>
         sample_ledger) !! "rl::5.6.7.8"%string.
Proof.
  assert (H : ∀ request_identifier,
     _get_request_identifier strategy_3_per_10s sample_request
     = Ok request_identifier →
     "rl::5.6.7.8"%string ≠ sliding_key strategy_3_per_10s request_identifier).
  { intros request_identifier Hid. injection Hid as <-. discriminate. }
  split; [exact H|].
  exact (sliding_touches_only_its_key strategy_3_per_10s sample_request
           1700000000500 1700000000500 _ "rl::5.6.7.8" H).
Defined.

(** On a key that holds an integer the three sorted-set commands fail with
    WRONGTYPE and the evaluation raises, but the EXPIRE queued after them
    still runs: the foreign key keeps its value and gets the strategy's
    TTL. *)
Theorem sliding_on_counter_key (self : Strategy) (request : Request)
  (request_identifier : pyobj) (epoch_ms srv_ms : Z) (st : gmap string entry)
  (n : Z) (d : option Z) :
  _get_request_identifier self request = Ok request_identifier →
  0 < period_in_seconds (_ratelimit_config self) →
  get srv_ms st (sliding_key self request_identifier) = Some (mkEntry (VInt n) d) →
  SlidingWindowLimitStrategy.get_ratelimit_status self request epoch_ms srv_ms st
  = (Raise (ResponseError WRONGTYPE),
     <[sliding_key self request_identifier :=
         mkEntry (VInt n) (Some (srv_ms + sliding_ttl_ms self))]> st).
Proof.
  intros Hid Hp Hget.
  unfold SlidingWindowLimitStrategy.get_ratelimit_status. rewrite Hid.
  unfold execute, sliding_pipeline.
  rewrite run_cons. cbn [exec]. rewrite Hget.
  rewrite run_cons. cbn [exec]. rewrite Hget.
  rewrite run_cons. cbn [exec]. rewrite Hget.
  rewrite run_cons. cbn [exec]. rewrite Hget.
  assert (Hs : (period_in_seconds (_ratelimit_config self) * 1000 + 1 <=? 0) = false)
    by (apply Z.leb_gt; lia).
  rewrite Hs. reflexivity.
Qed.

Lemma sliding_on_counter_key_witness :
  _get_request_identifier strategy_3_per_10s sample_request = Ok (PStr "1.2.3.4")
  ∧ 0 < period_in_seconds (_ratelimit_config strategy_3_per_10s)
  ∧ get 1700000000000 {[ sample_key := mkEntry (VInt 7) None ]} sample_key
    = Some (mkEntry (VInt 7) None)
  ∧ SlidingWindowLimitStrategy.get_ratelimit_status strategy_3_per_10s
      sample_request 1700000000000 1700000000000
      {[ sample_key := mkEntry (VInt 7) None ]}
    = (Raise (ResponseError WRONGTYPE),
       <[sample_key := mkEntry (VInt 7) (Some 1700010001000)]>
         {[ sample_key := mkEntry (VInt 7) None ]}).
Proof.
  split; [reflexivity|]. split; [reflexivity|]. split; [reflexivity|].
  exact (sliding_on_counter_key strategy_3_per_10s sample_request (PStr "1.2.3.4")
           1700000000000 1700000000000 {[ sample_key := mkEntry (VInt 7) None ]}
           7 None eq_refl eq_refl eq_refl).
Defined.

(** A second evaluation with the same millisecond reading, made while the
    key is still alive, returns what the first returned and leaves the same
    ledger: requests of one millisecond share one entry and count once. *)
Theorem sliding_same_millisecond_counts_once (self : Strategy)
  (request : Request) (request_identifier : pyobj) (epoch_ms srv_ms srv_ms' : Z)
  (st : gmap string entry) :
  _get_request_identifier self request = Ok request_identifier →
  0 < period_in_seconds (_ratelimit_config self) →
  not_a_counter srv_ms st (sliding_key self request_identifier) →
  srv_ms' < srv_ms + sliding_ttl_ms self →
  (SlidingWindowLimitStrategy.get_ratelimit_status self request epoch_ms srv_ms'
     (SlidingWindowLimitStrategy.get_ratelimit_status self request epoch_ms srv_ms st).2).1
  = (SlidingWindowLimitStrategy.get_ratelimit_status self request epoch_ms srv_ms st).1
  ∧ zset_at srv_ms'
      (SlidingWindowLimitStrategy.get_ratelimit_status self request epoch_ms srv_ms'
         (SlidingWindowLimitStrategy.get_ratelimit_status self request epoch_ms srv_ms st).2).2
      (sliding_key self request_identifier)
    = zset_at srv_ms
        (SlidingWindowLimitStrategy.get_ratelimit_status self request epoch_ms srv_ms st).2
        (sliding_key self request_identifier).
Proof.
  intros Hid Hp Hnc Hlive.
  rewrite (zset_at_after self request request_identifier Hid Hp epoch_ms srv_ms st Hnc).
  rewrite (sliding_evaluation self request request_identifier Hid Hp
             epoch_ms srv_ms st Hnc).
  cbn [fst snd].
  set (L := zadd (sliding_member epoch_ms) epoch_ms
              (zremrangebyscore 0
                 (epoch_ms - period_in_seconds (_ratelimit_config self) * 100)
                 (zset_at srv_ms st (sliding_key self request_identifier)))).
  set (st1 := <[sliding_key self request_identifier := mkEntry (VZSet L) (Some (srv_ms + sliding_ttl_ms self))]> st).
  assert (Hl : live srv_ms' (mkEntry (VZSet L) (Some (srv_ms + sliding_ttl_ms self)))
               = true).
  { unfold live. cbn [deadline]. apply Z.ltb_lt. exact Hlive. }
  assert (Hnc1 : not_a_counter srv_ms' st1 (sliding_key self request_identifier)).
  { intros n d. unfold st1. rewrite get_insert, Hl. discriminate. }
  assert (Hz1 : zset_at srv_ms' st1 (sliding_key self request_identifier) = L)
    by (apply zset_at_insert; exact Hl).
  assert (Hagain : zadd (sliding_member epoch_ms) epoch_ms
              (zremrangebyscore 0
                 (epoch_ms - period_in_seconds (_ratelimit_config self) * 100)
                 (zset_at srv_ms' st1 (sliding_key self request_identifier))) = L).
  { rewrite Hz1. unfold L. apply zadd_after_zadd. lia. }
  rewrite (zset_at_after self request request_identifier Hid Hp epoch_ms srv_ms' st1 Hnc1).
  rewrite (sliding_evaluation self request request_identifier Hid Hp
             epoch_ms srv_ms' st1 Hnc1).
  cbn [fst]. rewrite Hagain. split; reflexivity.
Qed.

Lemma sliding_same_millisecond_counts_once_witness :
  _get_request_identifier strategy_3_per_10s sample_request = Ok (PStr "1.2.3.4")
  ∧ 0 < period_in_seconds (_ratelimit_config strategy_3_per_10s)
  ∧ not_a_counter 1700000000500 sample_ledger sample_key
  ∧ 1700000000500 < 1700000000500 + sliding_ttl_ms strategy_3_per_10s
  ∧ (SlidingWindowLimitStrategy.get_ratelimit_status strategy_3_per_10s
       sample_request 1700000000500 1700000000500
       (SlidingWindowLimitStrategy.get_ratelimit_status strategy_3_per_10s
          sample_request 1700000000500 1700000000500 sample_ledger).2).1
    = Ok (mkStatus 2 (mkConfig 3 10) (-1)).
Proof.
  assert (Hnc : not_a_counter 1700000000500 sample_ledger sample_key).
  { intros n d H. vm_compute in H. discriminate H. }
  split; [reflexivity|]. split; [reflexivity|]. split; [exact Hnc|].
  split; [reflexivity|].
  rewrite (proj1 (sliding_same_millisecond_counts_once strategy_3_per_10s
             sample_request (PStr "1.2.3.4") 1700000000500 1700000000500
             1700000000500 sample_ledger eq_refl eq_refl Hnc eq_refl)).
  vm_compute. reflexivity.
Defined.

Lemma zremrangebyscore_entries (max : Z) (ts : list Z) :
  (∀ p, p ∈ ts → 0 ≤ p) →
  zremrangebyscore 0 max (sliding_entry <$> ts)
  = sliding_entry <$> filter (λ p, max < p) ts.
Proof.
  induction ts as [|t ts IH]; intros H; [reflexivity|].
  specialize (IH (λ p Hp, H p (list_elem_of_further _ _ _ Hp))).
  pose proof (H t (list_elem_of_here _ _)) as Ht.
  rewrite fmap_cons. unfold zremrangebyscore in *.
  destruct (decide (max < t)) as [Hlt|Hge].
  - rewrite !filter_cons_True; [|exact Hlt|].
    + rewrite fmap_cons, IH. reflexivity.
    + unfold in_range, sliding_entry. cbn [snd]. lia.
  - rewrite !filter_cons_False; [exact IH|exact Hge|].
    unfold in_range, sliding_entry. cbn [snd]. intros Hn. apply Hn. lia.
Qed.

Lemma events_in_horizon_elem (h t p : Z) (ts : list Z) :
  p ∈ events_in_horizon h t ts ↔ t - h < p ∧ p ∈ ts.
Proof. unfold events_in_horizon. apply list_elem_of_filter. Qed.

Lemma events_in_horizon_later (h t t' : Z) (ts : list Z) :
  t ≤ t' →
  events_in_horizon h t' (events_in_horizon h t ts) = events_in_horizon h t' ts.
Proof.
  intros Hle. unfold events_in_horizon.
  apply list_filter_filter_l. intros p Hp. lia.
Qed.

Lemma events_in_horizon_snoc (h t : Z) (ts : list Z) :
  0 < h →
  events_in_horizon h t (ts ++ [t]) = events_in_horizon h t ts ++ [t].
Proof.
  intros Hh. unfold events_in_horizon. rewrite filter_app. f_equal.
  rewrite filter_cons_True by lia. reflexivity.
Qed.

Section SlidingHorizon.

Variable self : Strategy.
Variable request : Request.
Variable request_identifier : pyobj.
Hypothesis resolved : _get_request_identifier self request = Ok request_identifier.

Let cfg := _ratelimit_config self.
Let period := period_in_seconds cfg.
Let key := sliding_key self request_identifier.
Let horizon := period * 100.
Hypothesis period_pos : 0 < period.
Hypothesis decoding : redis_decode_responses request = true.

(** One evaluation at [t], store and caller on the same clock, over a
    ledger of earlier events of any age. *)
Lemma sliding_step_pruning (t : Z) (ledger : list Z) (st : gmap string entry) :
  not_a_counter t st key →
  zset_at t st key = sliding_entry <$> ledger →
  (∀ p, p ∈ ledger → 0 ≤ p < t) →
  SlidingWindowLimitStrategy.get_ratelimit_status self request t t st =
    (Ok (mkStatus (Z.of_nat (length (events_in_horizon horizon t ledger)) + 1)
           cfg (-1)),
     <[key := mkEntry
                (VZSet (sliding_entry <$> (events_in_horizon horizon t ledger ++ [t])))
                (Some (t + sliding_ttl_ms self))]> st).
Proof.
  intros Hnc Hzs Hledger.
  rewrite (sliding_evaluation self request request_identifier resolved period_pos)
    by exact Hnc.
  fold key. rewrite Hzs. fold cfg. fold period. fold horizon.
  rewrite zremrangebyscore_entries by (intros p Hp; apply Hledger, Hp).
  fold (events_in_horizon horizon t ledger).
  assert (Hin : ∀ p, p ∈ events_in_horizon horizon t ledger → p < t).
  { intros p Hp. apply events_in_horizon_elem in Hp as [_ Hp].
    apply Hledger, Hp. }
  unfold zadd. rewrite zremove_other_members by exact Hin.
  change (sliding_member t, t) with (sliding_entry t).
  rewrite zinsert_latest by exact Hin.
  rewrite decoding, client_members_decoded by apply valid_entries.
  cbn [mbind result_bind].
  rewrite sum_weights_of_str, sum_weights_entries. cbn [mbind result_bind].
  rewrite length_app. cbn [length]. do 3 f_equal. lia.
Qed.

Lemma sliding_evaluations_horizon (times : list Z) :
  ∀ (prev : list Z) (st : gmap string entry),
    StronglySorted Z.lt (prev ++ times) →
    (∀ p, p ∈ prev ++ times → 0 ≤ p) →
    (∀ t, t ∈ times →
       not_a_counter t st key
       ∧ ∃ ledger, zset_at t st key = sliding_entry <$> ledger
                   ∧ (∀ p, p ∈ ledger → p ∈ prev)
                   ∧ events_in_horizon horizon t ledger
                     = events_in_horizon horizon t prev) →
    (sliding_evaluations self request times st).1
    = (λ n, Ok (mkStatus n cfg (-1))) <$> horizon_counts horizon prev times.
Proof.
  assert (Hh : 0 < horizon) by (unfold horizon; lia).
  induction times as [|t rest IH]; intros prev st Hsorted Hpos Hst;
    [reflexivity|].
  destruct (Hst t (list_elem_of_here _ _)) as (Hnc & ledger & Hzs & Hsub & Heq).
  assert (Hprev : ∀ p, p ∈ prev → p < t).
  { intros p Hp. apply (StronglySorted_app_1_elem_of _ _ _ _ _ Hsorted Hp).
    apply list_elem_of_here. }
  assert (Hledger : ∀ p, p ∈ ledger → 0 ≤ p < t).
  { intros p Hp. apply Hsub in Hp. split.
    - apply Hpos, elem_of_app. left. exact Hp.
    - apply Hprev, Hp. }
  cbn [sliding_evaluations horizon_counts].
  rewrite (sliding_step_pruning t ledger st Hnc Hzs Hledger). rewrite Heq.
  specialize (IH (prev ++ [t])
    (<[key := mkEntry
                (VZSet (sliding_entry <$> (events_in_horizon horizon t prev ++ [t])))
                (Some (t + sliding_ttl_ms self))]> st)).
  destruct (sliding_evaluations self request rest _) as [rs st2] eqn:Hrest.
  cbn [fst] in *. rewrite fmap_cons. f_equal.
  - rewrite events_in_horizon_snoc by exact Hh.
    rewrite length_app. cbn [length]. do 2 f_equal. lia.
  - apply IH.
    + rewrite <- app_assoc. exact Hsorted.
    + intros p Hp. apply Hpos. rewrite <- app_assoc in Hp. exact Hp.
    + intros t' Ht'.
      assert (Htt' : t < t').
      { apply StronglySorted_app_1_r in Hsorted.
        apply StronglySorted_inv in Hsorted as [_ Hall].
        rewrite Forall_forall in Hall. apply Hall, Ht'. }
      destruct (decide (t' < t + sliding_ttl_ms self)) as [Hlive|Hdead].
      * assert (Hl : live t' (mkEntry
                   (VZSet (sliding_entry <$> (events_in_horizon horizon t prev ++ [t])))
                   (Some (t + sliding_ttl_ms self))) = true).
        { unfold live. cbn [deadline]. apply Z.ltb_lt. exact Hlive. }
        split; [intros n d; rewrite get_insert, Hl; discriminate|].
        exists (events_in_horizon horizon t prev ++ [t]). split; [|split].
        -- apply zset_at_insert. exact Hl.
        -- intros p Hp. apply elem_of_app in Hp as [Hp|Hp].
           ++ apply events_in_horizon_elem in Hp as [_ Hp].
              apply elem_of_app. left. exact Hp.
           ++ apply elem_of_app. right. exact Hp.
        -- rewrite <- events_in_horizon_snoc by exact Hh.
           apply events_in_horizon_later. lia.
      * assert (Hl : live t' (mkEntry
                   (VZSet (sliding_entry <$> (events_in_horizon horizon t prev ++ [t])))
                   (Some (t + sliding_ttl_ms self))) = false).
        { unfold live. cbn [deadline]. apply Z.ltb_ge. lia. }
        split; [intros n d; rewrite get_insert, Hl; discriminate|].
        exists []. split; [|split].
        -- unfold zset_at. rewrite get_insert, Hl. reflexivity.
        -- intros p Hp. apply elem_of_nil in Hp. contradiction.
        -- symmetry. apply filter_none. intros p Hp.
           assert (p ≤ t).
           { apply elem_of_app in Hp as [Hp|Hp].
             - apply Hprev in Hp. lia.
             - apply list_elem_of_singleton in Hp. lia. }
           unfold sliding_ttl_ms in Hdead. fold cfg in Hdead. fold period in Hdead.
           unfold horizon. lia.
Qed.

End SlidingHorizon.

(** With a store client that decodes replies: from an absent key,
    evaluations at increasing non-negative millisecond readings (store and
    caller on one clock, gaps of any length, the key possibly expiring in
    between) return, at reading [t], the number of evaluations made so far,
    itself included, whose reading is later than
    [t - period_in_seconds * 100]. *)
Theorem sliding_counts_events_in_horizon (self : Strategy) (request : Request)
  (request_identifier : pyobj) (times : list Z) (st : gmap string entry) :
  _get_request_identifier self request = Ok request_identifier →
  0 < period_in_seconds (_ratelimit_config self) →
  redis_decode_responses request = true →
  st !! sliding_key self request_identifier = None →
  StronglySorted Z.lt times →
  (∀ t, t ∈ times → 0 ≤ t) →
  (sliding_evaluations self request times st).1
  = (λ n, Ok (mkStatus n (_ratelimit_config self) (-1)))
      <$> horizon_counts (period_in_seconds (_ratelimit_config self) * 100) [] times.
Proof.
  intros Hid Hp Hdec Hfresh Hsorted Hpos.
  apply (sliding_evaluations_horizon self request request_identifier Hid Hp Hdec).
  - exact Hsorted.
  - exact Hpos.
  - intros t _. split.
    + intros n d. unfold get. rewrite Hfresh. discriminate.
    + exists []. unfold zset_at, get. rewrite Hfresh. auto.
Qed.

Lemma sliding_counts_events_in_horizon_witness :
  _get_request_identifier strategy_3_per_10s sample_request = Ok (PStr "1.2.3.4")
  ∧ 0 < period_in_seconds (_ratelimit_config strategy_3_per_10s)
  ∧ redis_decode_responses sample_request = true
  ∧ (∅ : gmap string entry) !! sliding_key strategy_3_per_10s (PStr "1.2.3.4") = None
  ∧ StronglySorted Z.lt
      [1700000000000; 1700000000400; 1700000000900; 1700000001200; 1700000005000]
  ∧ (∀ t, t ∈ [1700000000000; 1700000000400; 1700000000900; 1700000001200;
               1700000005000] → 0 ≤ t)
  ∧ (sliding_evaluations strategy_3_per_10s sample_request
       [1700000000000; 1700000000400; 1700000000900; 1700000001200; 1700000005000]
       ∅).1
    = (λ n, Ok (mkStatus n (mkConfig 3 10) (-1))) <$> [1; 2; 3; 3; 1].
Proof.
  assert (Hsorted : StronglySorted Z.lt
      [1700000000000; 1700000000400; 1700000000900; 1700000001200; 1700000005000]).
  { repeat (apply SSorted_cons; [|repeat constructor]). apply SSorted_nil. }
  assert (Hpos : ∀ t, t ∈ [1700000000000; 1700000000400; 1700000000900;
                           1700000001200; 1700000005000] → 0 ≤ t).
  { intros t Ht. rewrite !elem_of_cons, elem_of_nil in Ht.
    destruct Ht as [->|[->|[->|[->|[->|[]]]]]]; discriminate. }
  split; [reflexivity|]. split; [reflexivity|]. split; [reflexivity|].
  split; [reflexivity|]. split; [exact Hsorted|]. split; [exact Hpos|].
  exact (sliding_counts_events_in_horizon strategy_3_per_10s sample_request
           (PStr "1.2.3.4") _ ∅ eq_refl eq_refl eq_refl eq_refl Hsorted Hpos).
Defined.

(** ** Members the strategy did not write *)

Lemma last_split_aux_is_Some (sep : ascii) (s cur : string) :
  is_Some (last (split_aux sep s cur)).
Proof.
  revert cur. induction s as [|c s IH]; intros cur; cbn [split_aux].
  - eauto.
  - destruct (Ascii.eqb c sep); [|apply IH].
    rewrite last_cons. destruct (IH EmptyString) as [x ->]. eauto.
Qed.

Lemma int_of_str_error (s : string) (e : exn) :
  int_of_str s = Raise e → e = ValueError.
Proof. unfold int_of_str. intros H. repeat case_match; congruence. Qed.

Lemma weight_error (i : string) (e : exn) :
  weight i = Raise e → e = ValueError.
Proof.
  unfold weight, split, last_item.
  destruct (last_split_aux_is_Some ":" i EmptyString) as [x ->].
  cbn [mbind result_bind]. apply int_of_str_error.
Qed.

Lemma sum_weights_of_bad_member (members : list string) (i : string) :
  i ∈ members → is_ok (weight i) = false →
  sum_weights members = Raise ValueError.
Proof.
  induction members as [|x members IH]; intros Hin Hbad.
  - apply elem_of_nil in Hin. contradiction.
  - cbn [sum_weights]. destruct (weight x) as [w|e] eqn:Hw.
    + apply elem_of_cons in Hin as [->|Hin].
      * rewrite Hw in Hbad. discriminate Hbad.
      * cbn [mbind result_bind]. rewrite (IH Hin Hbad). reflexivity.
    + cbn [mbind result_bind]. f_equal. exact (weight_error x e Hw).
Qed.

(** With a store client that decodes replies and an ordered set whose
    members are all UTF-8 text: a member that survives the pruning and
    whose text after the last colon [int] does not accept makes the
    evaluation raise [ValueError]; the store has been written by then, so
    the event of the failed evaluation is in the ledger all the same. *)
Theorem sliding_member_without_weight (self : Strategy) (request : Request)
  (request_identifier : pyobj) (epoch_ms srv_ms : Z) (st : gmap string entry)
  (m : string) (s : Z) :
  _get_request_identifier self request = Ok request_identifier →
  0 < period_in_seconds (_ratelimit_config self) →
  redis_decode_responses request = true →
  (∀ m' s', (m', s') ∈ zset_at srv_ms st (sliding_key self request_identifier) →
            valid_utf8 m' = true) →
  (m, s) ∈ zset_at srv_ms st (sliding_key self request_identifier) →
  m ≠ sliding_member epoch_ms →
  ¬ (0 ≤ s ≤ epoch_ms - period_in_seconds (_ratelimit_config self) * 100) →
  is_ok (weight m) = false →
  (SlidingWindowLimitStrategy.get_ratelimit_status self request epoch_ms srv_ms st).1
  = Raise ValueError
  ∧ (sliding_member epoch_ms, epoch_ms) ∈
      zset_at srv_ms
        (SlidingWindowLimitStrategy.get_ratelimit_status self request epoch_ms
           srv_ms st).2
        (sliding_key self request_identifier).
Proof.
  intros Hid Hp Hdec Hvalid Hin Hne Hyoung Hbad.
  assert (Hnc : not_a_counter srv_ms st (sliding_key self request_identifier)).
  { intros n d Hget. unfold zset_at in Hin. rewrite Hget in Hin.
    apply elem_of_nil in Hin. exact Hin. }
  rewrite (zset_at_after self request request_identifier Hid Hp epoch_ms srv_ms st Hnc).
  rewrite (sliding_evaluation self request request_identifier Hid Hp
             epoch_ms srv_ms st Hnc).
  cbn [fst]. split.
  - rewrite Hdec, client_members_decoded.
    + cbn [mbind result_bind]. rewrite sum_weights_of_str.
      rewrite (sum_weights_of_bad_member _ m); [reflexivity| |exact Hbad].
      apply list_elem_of_fmap. exists (m, s). split; [reflexivity|].
      apply elem_of_zadd. right. split; [exact Hne|].
      apply elem_of_zremrangebyscore. split; [exact Hin | exact Hyoung].
    + intros m' Hm'. apply list_elem_of_fmap in Hm' as [[m'' s'] [-> Hm']].
      apply elem_of_zadd in Hm' as [[-> _]|[_ Hm']]; [apply valid_sliding_member|].
      apply elem_of_zremrangebyscore in Hm' as [Hm' _].
      exact (Hvalid _ _ Hm').
  - apply elem_of_zadd. left. split; reflexivity.
Qed.

Lemma sliding_member_without_weight_witness :
  _get_request_identifier strategy_3_per_10s sample_request = Ok (PStr "1.2.3.4")
  ∧ 0 < period_in_seconds (_ratelimit_config strategy_3_per_10s)
  ∧ redis_decode_responses sample_request = true
  ∧ (∀ m' s',
       (m', s') ∈
         zset_at 1700000000500
           {[ sample_key := mkEntry (VZSet [("session"%string, 1700000000400)]) None ]}
           (sliding_key strategy_3_per_10s (PStr "1.2.3.4")) →
       valid_utf8 m' = true)
  ∧ ("session"%string, 1700000000400) ∈
      zset_at 1700000000500
        {[ sample_key := mkEntry (VZSet [("session"%string, 1700000000400)]) None ]}
        (sliding_key strategy_3_per_10s (PStr "1.2.3.4"))
  ∧ "session"%string ≠ sliding_member 1700000000500
  ∧ ¬ (0 ≤ 1700000000400 ≤ 1700000000500 - 10 * 100)
  ∧ is_ok (weight "session") = false
  ∧ (SlidingWindowLimitStrategy.get_ratelimit_status strategy_3_per_10s
       sample_request 1700000000500 1700000000500
       {[ sample_key := mkEntry (VZSet [("session"%string, 1700000000400)]) None ]}).1
    = Raise ValueError.
Proof.
  assert (Hz : zset_at 1700000000500
           {[ sample_key := mkEntry (VZSet [("session"%string, 1700000000400)]) None ]}
           (sliding_key strategy_3_per_10s (PStr "1.2.3.4"))
         = [("session"%string, 1700000000400)]) by reflexivity.
  assert (H0 : ∀ m' s',
       (m', s') ∈
         zset_at 1700000000500
           {[ sample_key := mkEntry (VZSet [("session"%string, 1700000000400)]) None ]}
           (sliding_key strategy_3_per_10s (PStr "1.2.3.4")) →
       valid_utf8 m' = true).
  { intros m' s' H. rewrite Hz in H. apply list_elem_of_singleton in H.
    injection H as -> _. reflexivity. }
  assert (H1 : ("session"%string, 1700000000400) ∈
      zset_at 1700000000500
        {[ sample_key := mkEntry (VZSet [("session"%string, 1700000000400)]) None ]}
        (sliding_key strategy_3_per_10s (PStr "1.2.3.4"))).
  { rewrite Hz. apply list_elem_of_here. }
  assert (H2 : "session"%string ≠ sliding_member 1700000000500) by discriminate.
  assert (H3 : ¬ (0 ≤ 1700000000400 ≤ 1700000000500 - 10 * 100)).
  { intros [_ H]. apply H. reflexivity. }
  split; [reflexivity|]. split; [reflexivity|]. split; [reflexivity|].
  split; [exact H0|]. split; [exact H1|].
  split; [exact H2|]. split; [exact H3|]. split; [reflexivity|].
  exact (proj1 (sliding_member_without_weight strategy_3_per_10s sample_request
                  (PStr "1.2.3.4") 1700000000500 1700000000500 _
                  "session" 1700000000400 eq_refl eq_refl eq_refl H0 H1 H2 H3
                  eq_refl)).
Defined.

(** ** A client that does not decode replies *)

(** With a store client left at its default, the members of the ZRANGE
    reply are [bytes]; the reply always holds at least the member just
    added, and splitting its [bytes] at a [str] colon raises [TypeError]:
    every evaluation that gets as far as the store raises [TypeError] after
    having recorded its event. *)
Theorem sliding_raw_client_raises (self : Strategy) (request : Request)
  (request_identifier : pyobj) (epoch_ms srv_ms : Z) (st : gmap string entry) :
  _get_request_identifier self request = Ok request_identifier →
  0 < period_in_seconds (_ratelimit_config self) →
  redis_decode_responses request = false →
  not_a_counter srv_ms st (sliding_key self request_identifier) →
  (SlidingWindowLimitStrategy.get_ratelimit_status self request epoch_ms srv_ms st).1
  = Raise TypeError
  ∧ (sliding_member epoch_ms, epoch_ms) ∈
      zset_at srv_ms
        (SlidingWindowLimitStrategy.get_ratelimit_status self request epoch_ms
           srv_ms st).2
        (sliding_key self request_identifier).
Proof.
  intros Hid Hp Hdec Hnc.
  rewrite (zset_at_after self request request_identifier Hid Hp epoch_ms srv_ms st Hnc).
  rewrite (sliding_evaluation self request request_identifier Hid Hp
             epoch_ms srv_ms st Hnc).
  cbn [fst].
  assert (Hnew : (sliding_member epoch_ms, epoch_ms) ∈
            zadd (sliding_member epoch_ms) epoch_ms
              (zremrangebyscore 0
                 (epoch_ms - period_in_seconds (_ratelimit_config self) * 100)
                 (zset_at srv_ms st (sliding_key self request_identifier)))).
  { apply elem_of_zadd. left. split; reflexivity. }
  split; [|exact Hnew].
  rewrite Hdec, client_members_raw. cbn [mbind result_bind].
  destruct (zadd _ _ _) as [|x l]; [apply elem_of_nil in Hnew; contradiction|].
  reflexivity.
Qed.

Lemma sliding_raw_client_raises_witness :
  _get_request_identifier strategy_3_per_10s sample_request_raw_client
  = Ok (PStr "1.2.3.4")
  ∧ 0 < period_in_seconds (_ratelimit_config strategy_3_per_10s)
  ∧ redis_decode_responses sample_request_raw_client = false
  ∧ not_a_counter 1700000000000 ∅ (sliding_key strategy_3_per_10s (PStr "1.2.3.4"))
  ∧ (SlidingWindowLimitStrategy.get_ratelimit_status strategy_3_per_10s
       sample_request_raw_client 1700000000000 1700000000000 ∅).1
    = Raise TypeError.
Proof.
  assert (Hnc : not_a_counter 1700000000000 ∅
                  (sliding_key strategy_3_per_10s (PStr "1.2.3.4"))).
  { intros n d H. discriminate H. }
  split; [reflexivity|]. split; [reflexivity|]. split; [reflexivity|].
  split; [exact Hnc|].
  exact (proj1 (sliding_raw_client_raises strategy_3_per_10s
                  sample_request_raw_client (PStr "1.2.3.4")
                  1700000000000 1700000000000 ∅ eq_refl eq_refl eq_refl Hnc)).
Defined.

(** ** Witnesses for the further window properties *)

Lemma get_window_congruent_to_crc32_witness :
  0 < period_in_seconds (_ratelimit_config strategy_3_per_10s)
  ∧ identifier_bytes (PStr "1.2.3.4") = Some (list_byte_of_string "1.2.3.4")
  ∧ ∃ w, _get_window strategy_3_per_10s 1700000008 (PStr "1.2.3.4") = Ok w
         ∧ (w - Zlib.crc32 (list_byte_of_string "1.2.3.4")) mod 10 = 0.
Proof.
  split; [reflexivity|]. split; [reflexivity|].
  exact (get_window_congruent_to_crc32 strategy_3_per_10s 1700000008
           (PStr "1.2.3.4") (list_byte_of_string "1.2.3.4") eq_refl eq_refl).
Defined.

Lemma get_window_monotone_witness :
  0 < period_in_seconds (_ratelimit_config strategy_3_per_10s)
  ∧ 1700000003 ≤ 1700000008
  ∧ ∃ w1 w2, _get_window strategy_3_per_10s 1700000003 (PStr "1.2.3.4") = Ok w1
             ∧ _get_window strategy_3_per_10s 1700000008 (PStr "1.2.3.4") = Ok w2
             ∧ w1 ≤ w2.
Proof.
  split; [reflexivity|]. split; [discriminate|].
  exact (get_window_monotone strategy_3_per_10s 1700000003 1700000008
           (PStr "1.2.3.4") (list_byte_of_string "1.2.3.4")
           eq_refl (or_intror eq_refl) ltac:(discriminate)).
Defined.

Lemma get_window_advances_by_one_period_witness :
  0 < period_in_seconds (_ratelimit_config strategy_3_per_10s)
  ∧ ∃ w, _get_window strategy_3_per_10s 1700000003 (PStr "1.2.3.4") = Ok w
         ∧ ∀ later, w < later ≤ w + 10 →
             _get_window strategy_3_per_10s later (PStr "1.2.3.4") = Ok (w + 10).
Proof.
  split; [reflexivity|].
  exact (get_window_advances_by_one_period strategy_3_per_10s 1700000003
           (PStr "1.2.3.4") (list_byte_of_string "1.2.3.4")
           eq_refl (or_intror eq_refl)).
Defined.

(** ** Failing identifier factories *)

(** When the identifier factory raises, both strategies raise the same
    exception and no command reaches the store. *)
Theorem factory_failure_reaches_the_caller (self : Strategy) (request : Request)
  (e : exn) (addr : N) (now epoch_ms srv_ms : Z) (st : gmap string entry) :
  _get_request_identifier self request = Raise e →
  BucketingRateLimitStrategy.get_ratelimit_status self request addr now srv_ms st
  = (Raise e, st)
  ∧ SlidingWindowLimitStrategy.get_ratelimit_status self request epoch_ms srv_ms st
    = (Raise e, st).
Proof.
  intros H.
  unfold BucketingRateLimitStrategy.get_ratelimit_status,
    SlidingWindowLimitStrategy.get_ratelimit_status.
  rewrite H. split; reflexivity.
Qed.

Lemma factory_failure_reaches_the_caller_witness :
  _get_request_identifier strategy_failing_factory sample_request
  = Raise (UserError "client host unknown")
  ∧ BucketingRateLimitStrategy.get_ratelimit_status strategy_failing_factory
      sample_request 0x7f3a5c200040 1700000000 1700000000000 sample_ledger
    = (Raise (UserError "client host unknown"), sample_ledger)
  ∧ SlidingWindowLimitStrategy.get_ratelimit_status strategy_failing_factory
      sample_request 1700000000000 1700000000000 sample_ledger
    = (Raise (UserError "client host unknown"), sample_ledger).
Proof.
  split; [reflexivity|].
  exact (factory_failure_reaches_the_caller strategy_failing_factory
           sample_request (UserError "client host unknown") 0x7f3a5c200040
           1700000000 1700000000000 1700000000000 sample_ledger eq_refl).
Defined.
